(** * Verification of [cron/sentiment_fetch.py]

    A shallow embedding of the daily sentiment cron client: the config
    loader ([load_config]), the fetch client ([fetch_sentiment_data]) and
    the run controller ([main]), followed by the properties stated for
    them.

    Modelling conventions.
    - A Python [str] is the [string] of its UTF-8 bytes: a well-formed
      sequence is a character, any other byte stands for itself (as
      [os.fsencode] has it).  [strip] and [int] read the text character by
      character, with the whitespace and the decimal digits of Unicode
      14.0, the database of CPython 3.11; the operations on [=], [#] and
      [/] work on bytes, which no multi-byte sequence contains.
    - [repr], whose output depends on the whole Unicode database, is an
      input of a run, like the [requests] library.
    - [os.environ] is a [gmap string string].
    - The process state threaded through the script (environment, log
      records, HTTP requests issued) is an explicit [world]; a computation
      either returns, raises an [Exception] or raises [SystemExit].
    - The [requests] library and the remote endpoint are inputs of a run:
      what [requests.post] answers to a request, and what the response
      object answers to [.status_code], [.text] and [.json()].
    - Where interpreters differ, the built-ins follow CPython 3.11
      ([int] and its digit limit, [os.putenv]). *)

From Stdlib Require Import ZArith NArith Ascii String List Lia.
From stdpp Require Import base option list strings gmap fin_maps pretty.

Open Scope Z_scope.

(** ** Python built-ins on text *)

Module PyStr.

(** [Py_UNICODE_ISSPACE]: the characters [str.isspace] and [str.strip]
    take for whitespace, by code point. *)
Definition isspace (cp : N) : bool :=
  ((9 <=? cp) && (cp <=? 13) || (28 <=? cp) && (cp <=? 32)
   || (cp =? 0x85) || (cp =? 0xA0) || (cp =? 0x1680)
   || (0x2000 <=? cp) && (cp <=? 0x200A)
   || (cp =? 0x2028) || (cp =? 0x2029) || (cp =? 0x202F)
   || (cp =? 0x205F) || (cp =? 0x3000))%N.

Definition is_cont (n : N) : bool := ((0x80 <=? n) && (n <=? 0xBF))%N.

(** The first character of the text [String b0 r]: its code point and
    its length in bytes.  A byte that starts no well-formed UTF-8 sequence
    (a stray continuation byte, a truncated or overlong sequence, an
    encoded surrogate, a value past U+10FFFF) is the character
    U+DC00 + byte, of length 1. *)
Definition first_char (b0 : ascii) (r : string) : N * nat :=
  let n0 := N_of_ascii b0 in
  let stray := (0xDC00 + n0, 1%nat)%N in
  if (n0 <? 0x80)%N then (n0, 1%nat)
  else
    match r with
    | String b1 r1 =>
        let n1 := N_of_ascii b1 in
        if negb (is_cont n1) then stray
        else if ((0xC2 <=? n0) && (n0 <=? 0xDF))%N then
          (((n0 - 0xC0) * 64 + (n1 - 0x80))%N, 2%nat)
        else
          match r1 with
          | String b2 r2 =>
              let n2 := N_of_ascii b2 in
              let cp3 := ((n0 - 0xE0) * 4096 + (n1 - 0x80) * 64 + (n2 - 0x80))%N in
              if negb (is_cont n2) then stray
              else if ((0xE0 <=? n0) && (n0 <=? 0xEF))%N then
                if ((0x800 <=? cp3) && negb ((0xD800 <=? cp3) && (cp3 <=? 0xDFFF)))%N
                then (cp3, 3%nat) else stray
              else
                match r2 with
                | String b3 _ =>
                    let n3 := N_of_ascii b3 in
                    let cp4 := ((n0 - 0xF0) * 262144 + (n1 - 0x80) * 4096
                                + (n2 - 0x80) * 64 + (n3 - 0x80))%N in
                    if is_cont n3 && ((0xF0 <=? n0) && (n0 <=? 0xF4)
                                      && (0x10000 <=? cp4) && (cp4 <=? 0x10FFFF))%N
                    then (cp4, 4%nat) else stray
                | EmptyString => stray
                end
          | EmptyString => stray
          end
    | EmptyString => stray
    end.

(** [Py_ISSPACE], the whitespace [int()] skips: TAB..CR and the blank. *)
Definition c_isspace (c : ascii) : bool :=
  let n := N_of_ascii c in
  ((9 <=? n) && (n <=? 13) || (n =? 32))%N.

Definition is_char (a c : ascii) : bool := bool_decide (a = c).

Definition nonempty (s : string) : bool :=
  match s with EmptyString => false | String _ _ => true end.

(** [s.lstrip(chars)] for a set [chars] of ASCII characters, given as a
    predicate on bytes. *)
Fixpoint lstrip (p : ascii -> bool) (s : string) : string :=
  match s with
  | EmptyString => EmptyString
  | String c r => if p c then lstrip p r else s
  end.

(** [s.rstrip(chars)], [chars] as for [lstrip]: the whole trailing run
    of [chars] goes. *)
Fixpoint rstrip (p : ascii -> bool) (s : string) : string :=
  match s with
  | EmptyString => EmptyString
  | String c r =>
      match rstrip p r with
      | EmptyString => if p c then EmptyString else String c EmptyString
      | r' => String c r'
      end
  end.

(** [s.lstrip()]: whitespace characters are dropped from the front;
    [skip] counts the bytes still to drop of the character being left. *)
Fixpoint lstrip_from (skip : nat) (s : string) : string :=
  match s with
  | EmptyString => EmptyString
  | String b r =>
      match skip with
      | S k => lstrip_from k r
      | O =>
          let '(cp, len) := first_char b r in
          if isspace cp then lstrip_from (Nat.pred len) r else s
      end
  end.

Definition lstrip_space (s : string) : string := lstrip_from 0 s.

(** [s.rstrip()]: the text is kept up to the point from which only
    whitespace follows. *)
Fixpoint rstrip_space (s : string) : string :=
  match s with
  | EmptyString => EmptyString
  | String b r => if nonempty (lstrip_space s) then String b (rstrip_space r) else EmptyString
  end.

(** [s.strip()] *)
Definition strip (s : string) : string := lstrip_space (rstrip_space s).

(** [s.startswith(c)] for a one-character prefix. *)
Definition startswith (a : ascii) (s : string) : bool :=
  match s with
  | String c _ => is_char a c
  | EmptyString => false
  end.

(** [c in s] for a one-character needle. *)
Fixpoint contains (a : ascii) (s : string) : bool :=
  match s with
  | EmptyString => false
  | String c r => is_char a c || contains a r
  end.

(** [s.split(sep, 1)] for a one-character separator. *)
Fixpoint split1 (a : ascii) (s : string) : list string :=
  match s with
  | EmptyString => [EmptyString]
  | String c r =>
      if is_char a c then [EmptyString; r]
      else match split1 a r with
           | h :: t => String c h :: t
           | [] => [String c EmptyString]
           end
  end.

(** [s.endswith(c)] for a one-character suffix. *)
Fixpoint endswith (a : ascii) (s : string) : bool :=
  match s with
  | EmptyString => false
  | String c EmptyString => is_char a c
  | String _ r => endswith a r
  end.

(** [c * n] *)
Fixpoint repeat_char (a : ascii) (n : nat) : string :=
  match n with
  | O => EmptyString
  | S n' => String a (repeat_char a n')
  end.

(** The first [n] characters of [s] (the precision of a [%.200R]). *)
Fixpoint take_from (skip n : nat) (s : string) : string :=
  match s with
  | EmptyString => EmptyString
  | String b r =>
      match skip with
      | S k => String b (take_from k n r)
      | O =>
          match n with
          | O => EmptyString
          | S n' => String b (take_from (Nat.pred (snd (first_char b r))) n' r)
          end
      end
  end.

Definition take_chars (n : nat) (s : string) : string := take_from 0 n s.

(** Every character of [s] is ASCII. *)
Fixpoint is_ascii (s : string) : bool :=
  match s with
  | EmptyString => true
  | String b r => (N_of_ascii b <? 0x80)%N && is_ascii r
  end.

Definition hex_digit (n : N) : ascii :=
  ascii_of_N (if (n <? 10)%N then 48 + n else 87 + n)%N.

(** One character of [repr(s)] inside the quote [q]. *)
Definition repr_char (q c : ascii) : string :=
  let n := N_of_ascii c in
  if is_char q c || is_char "\" c then String "\" (String c EmptyString)
  else if (n =? 9)%N then "\t"
  else if (n =? 10)%N then "\n"
  else if (n =? 13)%N then "\r"
  else if ((n <? 32) || (n =? 127))%N then
    String "\" (String "x" (String (hex_digit (n / 16)) (String (hex_digit (n mod 16)) EmptyString)))
  else String c EmptyString.

Fixpoint repr_body (q : ascii) (s : string) : string :=
  match s with
  | EmptyString => EmptyString
  | String c r => repr_char q c +:+ repr_body q r
  end.

(** [repr(s)] for a text of ASCII characters: single quotes, unless [s]
    has a single quote and no double quote.  The sample runs pass it for
    the [repr] of the interpreter. *)
Definition ascii_repr (s : string) : string :=
  let q : ascii := if contains "'" s && negb (contains "034" s) then "034"%char else "'"%char in
  String q (repr_body q s +:+ String q EmptyString).

End PyStr.

(** ** [int(s)] *)

Module PyInt.

(** [sys.int_info.default_max_str_digits]: longer digit strings are
    refused by [int]. *)
Definition max_str_digits : N := 4300.

Definition digit_val (c : ascii) : option Z :=
  let n := N_of_ascii c in
  if ((48 <=? n) && (n <=? 57))%N then Some (Z.of_N n - 48) else None.

(** The digit scan of [PyLong_FromString]: digits, single underscores
    between them.  [prev_us] tells whether the previous character was an
    underscore; the result is the value, the digit count and the text
    left, or [None] on a doubled or trailing underscore. *)
Fixpoint scan (s : string) (prev_us : bool) (acc : Z) (digits : N)
  : option (Z * N * string) :=
  match s with
  | EmptyString => if prev_us then None else Some (acc, digits, EmptyString)
  | String c r =>
      if PyStr.is_char "_" c then
        if prev_us then None else scan r true acc digits
      else
        match digit_val c with
        | Some d => scan r false (10 * acc + d) (N.succ digits)
        | None => if prev_us then None else Some (acc, digits, s)
        end
  end.

(** The first code points of the runs of ten decimal digits (the
    characters of category Nd), ASCII apart. *)
Definition decimal_zeros : list N :=
  [0x660; 0x6F0; 0x7C0; 0x966; 0x9E6; 0xA66; 0xAE6; 0xB66; 0xBE6; 0xC66; 0xCE6;
   0xD66; 0xDE6; 0xE50; 0xED0; 0xF20; 0x1040; 0x1090; 0x17E0; 0x1810; 0x1946;
   0x19D0; 0x1A80; 0x1A90; 0x1B50; 0x1BB0; 0x1C40; 0x1C50; 0xA620; 0xA8D0;
   0xA900; 0xA9D0; 0xA9F0; 0xAA50; 0xABF0; 0xFF10; 0x104A0; 0x10D30; 0x11066;
   0x110F0; 0x11136; 0x111D0; 0x112F0; 0x11450; 0x114D0; 0x11650; 0x116C0;
   0x11730; 0x118E0; 0x11950; 0x11C50; 0x11D50; 0x11DA0; 0x16A60; 0x16AC0;
   0x16B50; 0x1D7CE; 0x1D7D8; 0x1D7E2; 0x1D7EC; 0x1D7F6; 0x1E140; 0x1E2F0;
   0x1E950; 0x1FBF0]%N.

(** [Py_UNICODE_TODECIMAL] *)
Definition decimal (cp : N) : option N :=
  match List.find (fun z => (z <=? cp) && (cp <? z + 10))%N decimal_zeros with
  | Some z => Some (cp - z)%N
  | None => None
  end.

(** [_PyUnicode_TransformDecimalAndSpaceToASCII] on a text that is not
    all ASCII: every whitespace character becomes a blank, every decimal
    digit its ASCII digit, and the text ends in [?] at the first other
    character from U+007F on. *)
Fixpoint to_ascii_from (skip : nat) (s : string) : string :=
  match s with
  | EmptyString => EmptyString
  | String b r =>
      match skip with
      | S k => to_ascii_from k r
      | O =>
          let '(cp, len) := PyStr.first_char b r in
          if (cp <? 127)%N then String b (to_ascii_from 0 r)
          else if PyStr.isspace cp then String " " (to_ascii_from (Nat.pred len) r)
          else
            match decimal cp with
            | Some d => String (ascii_of_N (48 + d)) (to_ascii_from (Nat.pred len) r)
            | None => "?"
            end
      end
  end.

Definition to_ascii (s : string) : string :=
  if PyStr.is_ascii s then s else to_ascii_from 0 s.

(** Why [int] raised [ValueError]. *)
Inductive error :=
  | InvalidLiteral
  | ExceedsLimit (digits : N).

(** The sign, then what follows it. *)
Definition sign (s : string) : Z * string :=
  match s with
  | String "+" r => (1, r)
  | String "-" r => (-1, r)
  | _ => (1, s)
  end.

(** [PyLong_FromString] in base 10. *)
Definition long_from_string (s : string) : Z + error :=
  let '(sg, body) := sign (PyStr.lstrip PyStr.c_isspace s) in
  if PyStr.startswith "_" body then inr InvalidLiteral
  else
    match scan body false 0 0 with
    | None => inr InvalidLiteral
    | Some (v, digits, rest) =>
        if (digits =? 0)%N then inr InvalidLiteral
        else if (max_str_digits <? digits)%N then inr (ExceedsLimit digits)
        else
          match PyStr.lstrip PyStr.c_isspace rest with
          | EmptyString => inl (sg * v)
          | String _ _ => inr InvalidLiteral
          end
    end.

(** [int(s)] in base 10: the integer, or why [ValueError] is raised. *)
Definition int (s : string) : Z + error := long_from_string (to_ascii s).

(** [str(e)] of the [ValueError]; [repr] is the interpreter's. *)
Definition message (repr : string -> string) (s : string) (e : error) : string :=
  match e with
  | InvalidLiteral =>
      "invalid literal for int() with base 10: " +:+ PyStr.take_chars 200 (repr s)
  | ExceedsLimit digits =>
      "Exceeds the limit (4300 digits) for integer string conversion: value has "
      +:+ pretty digits +:+ " digits; use sys.set_int_max_str_digits() to increase the limit"
  end.

End PyInt.

(** ** Exceptions, process state and the effect monad *)

(** An exception object, as the handlers of the script see it: which of
    the three classes named in an [except] clause it is an instance of,
    and its [str(e)].  Every exception modelled is an [Exception]. *)
Record exn := MkExn {
  is_Timeout : bool;           (* isinstance(e, requests.exceptions.Timeout) *)
  is_RequestException : bool;  (* isinstance(e, requests.exceptions.RequestException) *)
  is_JSONDecodeError : bool;   (* isinstance(e, json.JSONDecodeError) *)
  exn_str : string
}.

(** Built-in exceptions are in none of the three classes. *)
Definition builtin_error (msg : string) : exn := MkExn false false false msg.
Definition ValueError := builtin_error.
Definition OSError := builtin_error.
Definition AttributeError := builtin_error.

Inductive level := INFO | ERROR.

(** The arguments of the one [requests.post] call. *)
Record request := MkRequest {
  req_url : string;
  req_headers : list (string * string);
  req_json : list (string * string);
  req_timeout : Z
}.

(** What [response.json()] returns: a [dict], each value kept by its
    [str()] (the script only formats it), or an object of another type. *)
Inductive json_value :=
  | JsonObject (fields : gmap string string)
  | JsonOther (type_name : string).

Record response := MkResponse {
  status_code : Z;
  text : string;
  json : json_value + exn
}.

Record world := MkWorld {
  environ : gmap string string;
  logged : list (level * string);
  posted : list request
}.

Inductive outcome (A : Type) :=
  | Return (a : A)
  | Raise (e : exn)
  | SysExit (code : Z).
Arguments Return {A} a.
Arguments Raise {A} e.
Arguments SysExit {A} code.

Definition py (A : Type) : Type := world -> outcome A * world.

#[global] Instance py_ret : MRet py := fun A a w => (Return a, w).
#[global] Instance py_bind : MBind py := fun A B f m w =>
  match m w with
  | (Return a, w') => f a w'
  | (Raise e, w') => (Raise e, w')
  | (SysExit c, w') => (SysExit c, w')
  end.

Definition raise {A} (e : exn) : py A := fun w => (Raise e, w).

(** [sys.exit(code)]: raises [SystemExit], which is not an [Exception]. *)
Definition sys_exit {A} (code : Z) : py A := fun w => (SysExit code, w).

(** [try: body / except ...: handler]; the handler decides by class. *)
Definition try_except {A} (body : py A) (handler : exn -> py A) : py A :=
  fun w =>
    match body w with
    | (Raise e, w') => handler e w'
    | r => r
    end.

(** The three ways the script changes the process state. *)
Definition add_log (entries : list (level * string)) (w : world) : world :=
  MkWorld (environ w) (logged w ++ entries) (posted w).
Definition add_post (r : request) (w : world) : world :=
  MkWorld (environ w) (logged w) (posted w ++ [r]).
Definition set_env (key value : string) (w : world) : world :=
  MkWorld (<[key := value]> (environ w)) (logged w) (posted w).

(** [logger.info] / [logger.error] *)
Definition log (l : level) (msg : string) : py unit :=
  fun w => (Return tt, add_log [(l, msg)] w).
Definition logger_info := log INFO.
Definition logger_error := log ERROR.

(** [os.getenv(key)] *)
Definition getenv (key : string) : py (option string) :=
  fun w => (Return (environ w !! key), w).

(** [key in os.environ] *)
Definition in_environ (key : string) : py bool :=
  fun w => (Return (bool_decide (is_Some (environ w !! key))), w).

(** [os.environ[key] = value]: [putenv] refuses an embedded NUL, a name
    with [=] and the empty name. *)
Definition environ_setitem (key value : string) : py unit :=
  if PyStr.contains "000" key || PyStr.contains "000" value then
    raise (ValueError "embedded null byte")
  else if PyStr.contains "=" key then
    raise (ValueError "illegal environment variable name")
  else if negb (PyStr.nonempty key) then
    raise (OSError "[Errno 22] Invalid argument")
  else fun w => (Return tt, set_env key value w).

(** The status the interpreter exits with. *)
Definition exit_status {A} (r : outcome A) : Z :=
  match r with
  | Return _ => 0
  | Raise _ => 1
  | SysExit c => c
  end.

(** ** The script *)

(** [config.env] next to the script: absent, present but [open] fails, or
    its lines as the [for] loop reads them. *)
Inductive config_env :=
  | NoFile
  | OpenFails (e : exn)
  | Lines (lines : list string).

Record config := MkConfig {
  base_url : string;
  cron_secret : string;
  timeout : Z
}.

(** Truth value of an [os.getenv] result: [None] and [''] are false. *)
Definition truthy (o : option string) : bool :=
  match o with
  | Some s => PyStr.nonempty s
  | None => false
  end.

(** Body of the [for line in f] loop of [load_config]. *)
Definition load_line (line : string) : py unit :=
  let line := PyStr.strip line in
  if PyStr.nonempty line && negb (PyStr.startswith "#" line) && PyStr.contains "=" line then
    match PyStr.split1 "=" line with
    | [key; value] =>
        let key := PyStr.strip key in
        present ← in_environ key;
        if negb present then environ_setitem key (PyStr.strip value) else mret tt
    | parts =>
        raise (ValueError ("not enough values to unpack (expected 2, got "
                           +:+ pretty (length parts) +:+ ")"))
    end
  else mret tt.

Fixpoint load_lines (lines : list string) : py unit :=
  match lines with
  | [] => mret tt
  | line :: rest => load_line line ;; load_lines rest
  end.

(** [result.get(key, fallback)] on the result of [response.json()]. *)
Definition json_get (result : json_value) (key fallback : string) : py string :=
  match result with
  | JsonObject fields => mret (default fallback (fields !! key))
  | JsonOther ty => raise (AttributeError ("'" +:+ ty +:+ "' object has no attribute 'get'"))
  end.

(** The [key, value] pair a line of [config.env] contributes, if any. *)
Definition parse_line (line : string) : option (string * string) :=
  let line := PyStr.strip line in
  if PyStr.nonempty line && negb (PyStr.startswith "#" line) && PyStr.contains "=" line then
    match PyStr.split1 "=" line with
    | [key; value] => Some (PyStr.strip key, PyStr.strip value)
    | _ => None
    end
  else None.

Definition rule : string :=
  "============================================================".

Section Script.

Variable config_file : string.   (* str(script_dir / "config.env") *)
Variable now : string.           (* datetime.now().isoformat() *)
Variable file : config_env.
Variable endpoint : request -> response + exn.
Variable repr : string -> string.   (* repr(s) *)

(** [requests.post(url, headers=..., json=..., timeout=...)] *)
Definition requests_post (r : request) : py response :=
  fun w =>
    match endpoint r with
    | inl resp => (Return resp, add_post r w)
    | inr e => (Raise e, add_post r w)
    end.

(** The [if config_file.exists():] block. *)
Definition load_file : py unit :=
  match file with
  | NoFile => mret tt
  | OpenFails e =>
      logger_info ("Loading config from " +:+ config_file) ;;
      raise e
  | Lines lines =>
      logger_info ("Loading config from " +:+ config_file) ;;
      load_lines lines
  end.

(** Past the two checks [base_url] and [cron_secret] are strings, so the
    [default] of the last lines is never used. *)
Definition load_config : py config :=
  load_file ;;
  base_url ← getenv "BASE_URL";
  cron_secret ← getenv "CRON_SECRET";
  (if negb (truthy base_url) then
     logger_error "BASE_URL environment variable is required" ;;
     sys_exit 1
   else mret tt) ;;
  (if negb (truthy cron_secret) then
     logger_error "CRON_SECRET environment variable is required" ;;
     sys_exit 1
   else mret tt) ;;
  request_timeout ← getenv "REQUEST_TIMEOUT";
  match PyInt.int (default "300" request_timeout) with
  | inl n =>
      mret (MkConfig (PyStr.rstrip (PyStr.is_char "/") (default "" base_url))
                     (default "" cron_secret)
                     n)
  | inr e => raise (ValueError (PyInt.message repr (default "300" request_timeout) e))
  end.

Definition fetch_sentiment_data (config : config) : py bool :=
  let url := base_url config +:+ "/api/cron/sentiment-data" in
  let headers :=
    [("Content-Type", "application/json");
     ("Authorization", "Bearer " +:+ cron_secret config)] in
  logger_info ("🤖 Starting sentiment data fetch from " +:+ url) ;;
  try_except
    (response ← requests_post (MkRequest url headers [] (timeout config));
     logger_info ("📡 Response status: " +:+ pretty (status_code response)) ;;
     if status_code response =? 200 then
       result ← (match json response with
                 | inl v => mret v
                 | inr e => raise e
                 end);
       logger_info "✅ Sentiment data fetch successful!" ;;
       data_points ← json_get result "dataPoints" "N/A";
       logger_info ("📊 Data points: " +:+ data_points) ;;
       top_posts ← json_get result "topPosts" "N/A";
       logger_info ("📱 Top posts: " +:+ top_posts) ;;
       timestamp ← json_get result "timestamp" "N/A";
       logger_info ("⏰ Timestamp: " +:+ timestamp) ;;
       mret true
     else
       logger_error ("❌ Request failed with status " +:+ pretty (status_code response)) ;;
       logger_error ("Response: " +:+ text response) ;;
       mret false)
    (fun e =>
       if is_Timeout e then
         logger_error ("⏰ Request timed out after " +:+ pretty (timeout config) +:+ " seconds") ;;
         mret false
       else if is_RequestException e then
         logger_error ("❌ Request failed: " +:+ exn_str e) ;;
         mret false
       else if is_JSONDecodeError e then
         logger_error ("❌ Failed to parse JSON response: " +:+ exn_str e) ;;
         mret false
       else
         logger_error ("❌ Unexpected error: " +:+ exn_str e) ;;
         mret false).

Definition main : py unit :=
  logger_info rule ;;
  logger_info "🕘 DAILY SENTIMENT ANALYSIS CRON JOB STARTED" ;;
  logger_info ("⏰ Current time: " +:+ now) ;;
  logger_info rule ;;
  try_except
    (config ← load_config;
     logger_info ("🔧 Configuration loaded - Base URL: " +:+ base_url config) ;;
     success ← fetch_sentiment_data config;
     if success : bool then
       logger_info "✅ Sentiment analysis cron job completed successfully" ;;
       logger_info rule ;;
       sys_exit 0
     else
       logger_error "❌ Sentiment analysis cron job failed" ;;
       logger_info rule ;;
       sys_exit 1)
    (fun e =>
       logger_error ("❌ Fatal error in cron job: " +:+ exn_str e) ;;
       logger_info rule ;;
       sys_exit 1).

(** What [load_config] does once the file is loaded. *)
Definition check_required (w1 : world) : outcome config * world :=
  if negb (truthy (environ w1 !! "BASE_URL")) then
    (SysExit 1, add_log [(ERROR, "BASE_URL environment variable is required")] w1)
  else if negb (truthy (environ w1 !! "CRON_SECRET")) then
    (SysExit 1, add_log [(ERROR, "CRON_SECRET environment variable is required")] w1)
  else
    match PyInt.int (default "300" (environ w1 !! "REQUEST_TIMEOUT")) with
    | inl n =>
        (Return (MkConfig (PyStr.rstrip (PyStr.is_char "/") (default "" (environ w1 !! "BASE_URL")))
                          (default "" (environ w1 !! "CRON_SECRET")) n), w1)
    | inr e =>
        (Raise (ValueError (PyInt.message repr
                              (default "300" (environ w1 !! "REQUEST_TIMEOUT")) e)), w1)
    end.

(** The request [fetch_sentiment_data] builds from a configuration. *)
Definition sentiment_request (config : config) : request :=
  MkRequest (base_url config +:+ "/api/cron/sentiment-data")
            [("Content-Type", "application/json");
             ("Authorization", "Bearer " +:+ cron_secret config)]
            []
            (timeout config).

(** The record the [except] clauses of [fetch_sentiment_data] log for
    an exception, first matching clause first. *)
Definition failure_record (config : config) (e : exn) : level * string :=
  if is_Timeout e then
    (ERROR, "⏰ Request timed out after " +:+ pretty (timeout config) +:+ " seconds")
  else if is_RequestException e then (ERROR, "❌ Request failed: " +:+ exn_str e)
  else if is_JSONDecodeError e then (ERROR, "❌ Failed to parse JSON response: " +:+ exn_str e)
  else (ERROR, "❌ Unexpected error: " +:+ exn_str e).

(** The records of a fetch that gets a response. *)
Definition response_records (config : config) (resp : response) : list (level * string) :=
  (INFO, "📡 Response status: " +:+ pretty (status_code resp)) ::
  if status_code resp =? 200 then
    match json resp with
    | inr e => [failure_record config e]
    | inl (JsonObject fields) =>
        [(INFO, "✅ Sentiment data fetch successful!");
         (INFO, "📊 Data points: " +:+ default "N/A" (fields !! "dataPoints"));
         (INFO, "📱 Top posts: " +:+ default "N/A" (fields !! "topPosts"));
         (INFO, "⏰ Timestamp: " +:+ default "N/A" (fields !! "timestamp"))]
    | inl (JsonOther ty) =>
        [(INFO, "✅ Sentiment data fetch successful!");
         failure_record config (AttributeError ("'" +:+ ty +:+ "' object has no attribute 'get'"))]
    end
  else
    [(ERROR, "❌ Request failed with status " +:+ pretty (status_code resp));
     (ERROR, "Response: " +:+ text resp)].

(** A response that makes the fetch succeed. *)
Definition accepted (resp : response) : bool :=
  (status_code resp =? 200) &&
  match json resp with
  | inl (JsonObject _) => true
  | _ => false
  end.

(** The records [main] starts every run with. *)
Definition banner : list (level * string) :=
  [(INFO, rule);
   (INFO, "🕘 DAILY SENTIMENT ANALYSIS CRON JOB STARTED");
   (INFO, "⏰ Current time: " +:+ now);
   (INFO, rule)].

Definition fatal_records (e : exn) : list (level * string) :=
  [(ERROR, "❌ Fatal error in cron job: " +:+ exn_str e); (INFO, rule)].

Definition config_loaded_record (config : config) : level * string :=
  (INFO, "🔧 Configuration loaded - Base URL: " +:+ base_url config).

(** A run of the script from a fresh process: its environment, nothing
    logged, nothing posted. *)
Definition start (env : gmap string string) : world := MkWorld env [] [].

(** The body of the response parses as JSON: [response.json()] returns. *)
Definition parses_as_json (resp : response) : Prop :=
  exists v, json resp = inl v.

(** The body of the response parses as a JSON object. *)
Definition parses_as_json_object (resp : response) : Prop :=
  exists fields, json resp = inl (JsonObject fields).

(** In the run from [w], the fetch client is reached and reports success. *)
Definition fetch_reports_success (w : world) : Prop :=
  exists config w1 w2,
    load_config (add_log banner w) = (Return config, w1) /\
    fetch_sentiment_data config (add_log [config_loaded_record config] w1) = (Return true, w2).

(** The name in the record of a failed check of the required variables. *)
Definition reported_variable (w1 : world) : string :=
  if truthy (environ w1 !! "BASE_URL") then "CRON_SECRET" else "BASE_URL".

Definition required_record (w1 : world) : level * string :=
  (ERROR, reported_variable w1 +:+ " environment variable is required").

(** The state [w] with the variable [key] absent from the environment. *)
Definition unset (key : string) (w : world) : world :=
  MkWorld (delete key (environ w)) (logged w) (posted w).

(** Removal of a single trailing slash, one slash at most: the reading
    the specification gives of the normalisation of the base URL, to be
    compared with [PyStr.rstrip]. *)
Fixpoint strip_single_trailing_slash (s : string) : string :=
  match s with
  | EmptyString => EmptyString
  | String c EmptyString => if PyStr.is_char "/" c then EmptyString else s
  | String c r => String c (strip_single_trailing_slash r)
  end.

(** The exceptions of the [requests] library the handlers tell apart.
    [requests.exceptions.JSONDecodeError] is what [response.json()]
    raises on a body that is not JSON since requests 2.27: it derives
    from [InvalidJSONError], a [RequestException], and from
    [json.JSONDecodeError].  Before 2.27 [response.json()] raised
    [json.JSONDecodeError] itself. *)
Definition requests_Timeout (msg : string) : exn := MkExn true true false msg.
Definition requests_ConnectionError (msg : string) : exn := MkExn false true false msg.
Definition requests_JSONDecodeError (msg : string) : exn := MkExn false true true msg.
Definition json_JSONDecodeError (msg : string) : exn := MkExn false false true msg.

(** ** Sample inputs *)

Definition sample_config : config := MkConfig "http://example.com" "s3cret" 30.

(** Status 200 with the empty JSON object. *)
Definition object_response : response :=
  MkResponse 200 "{}" (inl (JsonObject ∅)).

(** Status 200 with a body that is JSON, but an array. *)
Definition array_response : response :=
  MkResponse 200 "[]" (inl (JsonOther "list")).

(** Status 200 with a body that is not JSON, under requests 2.27 or later. *)
Definition html_response : response :=
  MkResponse 200 "<html>"
    (inr (requests_JSONDecodeError "Expecting value: line 1 column 1 (char 0)")).

Definition answer (resp : response) : request -> response + exn := fun _ => inl resp.
Definition timing_out : request -> response + exn :=
  fun _ => inr (requests_Timeout "Read timed out. (read timeout=30)").

Definition env_of (l : list (string * string)) : gmap string string := list_to_map l.

(** ** Further notions used to describe the script *)

(** The record [load_file] logs when [config.env] exists. *)
Definition loading_records : list (level * string) :=
  match file with
  | NoFile => []
  | _ => [(INFO, "Loading config from " +:+ config_file)]
  end.

(** U+00A0 NO-BREAK SPACE and U+3000 IDEOGRAPHIC SPACE, in UTF-8. *)
Definition nbsp : string := String "194" (String "160" EmptyString).
Definition ideographic_space : string :=
  String "227" (String "128" (String "128" EmptyString)).

(** Two states are compared field by field, the records flattened. *)
Ltac norm_world :=
  unfold add_log, add_post, set_env; cbn [environ logged posted];
  rewrite <- ?app_assoc; cbn [app].

(** ** Facts about the text functions *)

Lemma rstrip_empty_iff a s :
  PyStr.rstrip (PyStr.is_char a) s = EmptyString ->
  exists n, s = PyStr.repeat_char a n.
Proof.
  induction s as [|c r IH]; simpl; [by exists O|].
  destruct (PyStr.rstrip (PyStr.is_char a) r) eqn:E; [|done].
  unfold PyStr.is_char at 1. case_bool_decide as Hc; [|done].
  intros _. destruct (IH eq_refl) as [n ->]. subst c. by exists (S n).
Qed.

(** [s.rstrip(c)] takes a run of [c] off the end of [s] ... *)
Lemma rstrip_run a s :
  exists n, s = PyStr.rstrip (PyStr.is_char a) s +:+ PyStr.repeat_char a n.
Proof.
  induction s as [|c r IH]; simpl; [by exists O|].
  destruct (PyStr.rstrip (PyStr.is_char a) r) as [|c' r'] eqn:E.
  - destruct (rstrip_empty_iff a r E) as [n ->].
    unfold PyStr.is_char. case_bool_decide as Hc.
    + subst c. by exists (S n).
    + by exists n.
  - destruct IH as [n IH]. exists n. by rewrite IH at 1.
Qed.

(** ... and it takes the whole run: what is left does not end in [c]. *)
Lemma rstrip_no_trailing a s :
  PyStr.endswith a (PyStr.rstrip (PyStr.is_char a) s) = false.
Proof.
  induction s as [|c r IH]; simpl; [done|].
  destruct (PyStr.rstrip (PyStr.is_char a) r) as [|c' r'] eqn:E.
  - by destruct (PyStr.is_char a c) eqn:Hc; simpl.
  - exact IH.
Qed.

Lemma rstrip_id a s :
  PyStr.endswith a s = false -> PyStr.rstrip (PyStr.is_char a) s = s.
Proof.
  induction s as [|c r IH]; simpl; [done|].
  destruct r as [|c' r'].
  - simpl. by intros ->.
  - intros H. by rewrite (IH H).
Qed.

(** ** [int] reads back what [str] prints *)






(** ** Facts about the runtime *)

Lemma add_log_add_log a b w : add_log b (add_log a w) = add_log (a ++ b) w.
Proof. unfold add_log; simpl. by rewrite app_assoc. Qed.

Lemma add_log_nil w : add_log [] w = w.
Proof. destruct w; unfold add_log; simpl. by rewrite app_nil_r. Qed.

Lemma split1_of_contains a s :
  PyStr.contains a s = true -> exists k v, PyStr.split1 a s = [k; v].
Proof.
  induction s as [|c r IH]; simpl; [done|].
  destruct (PyStr.is_char a c); simpl; [by eauto|].
  intros H. destruct (IH H) as (k & v & ->). by eauto.
Qed.

Lemma load_line_spec line w :
  load_line line w =
    match parse_line line with
    | None => (Return tt, w)
    | Some (k, v) =>
        if bool_decide (is_Some (environ w !! k)) then (Return tt, w)
        else environ_setitem k v w
    end.
Proof.
  unfold load_line, parse_line.
  destruct (PyStr.nonempty _ && negb _ && PyStr.contains "=" _) eqn:E; [|done].
  apply andb_prop in E as [_ E].
  destruct (split1_of_contains _ _ E) as (k & v & ->).
  unfold mbind, py_bind, in_environ.
  by destruct (bool_decide _).
Qed.

Lemma environ_setitem_cases k v w :
  (exists e, environ_setitem k v w = (Raise e, w)) \/
  environ_setitem k v w = (Return tt, set_env k v w).
Proof.
  unfold environ_setitem.
  repeat match goal with |- context [if ?b then _ else _] => destruct b end;
    unfold raise; eauto.
Qed.

(** One line of the file: nothing happens, or an exception leaves the
    state as it was, or a key that was not in the environment is set. *)
Lemma load_line_cases line w :
  load_line line w = (Return tt, w) \/
  (exists e, load_line line w = (Raise e, w)) \/
  (exists k v, parse_line line = Some (k, v) /\ environ w !! k = None /\
               load_line line w = (Return tt, set_env k v w)).
Proof.
  rewrite load_line_spec.
  destruct (parse_line line) as [[k v]|]; [|by left].
  case_bool_decide as Hk; [by left|].
  destruct (environ_setitem_cases k v w) as [[e ->] | ->]; [by eauto|].
  right; right. exists k, v. split_and!; [done| |done].
  by apply eq_None_not_Some.
Qed.

(** The loop keeps every entry of the environment, logs nothing, posts
    nothing, and ends by returning or by an exception. *)
Lemma load_lines_frame lines w :
  exists r w',
    load_lines lines w = (r, w') /\
    (r = Return tt \/ exists e, r = Raise e) /\
    environ w ⊆ environ w' /\ logged w' = logged w /\ posted w' = posted w.
Proof.
  revert w. induction lines as [|line rest IH]; intros w; simpl.
  - exists (Return tt), w. split_and!; eauto.
  - unfold mbind, py_bind.
    destruct (load_line_cases line w) as [-> | [[e ->] | (k & v & _ & Hk & ->)]].
    + apply IH.
    + exists (Raise e), w. split_and!; eauto.
    + destruct (IH (set_env k v w)) as (r & w' & -> & Hr & Hsub & Hl & Hp).
      exists r, w'. split_and!; try done.
      trans (<[k:=v]> (environ w)); [by apply insert_subseteq | exact Hsub].
Qed.

(** When the loop completes, the environment is the old one merged with
    the pairs of the file, old entries and earlier lines first. *)
Lemma load_lines_merge lines w w' :
  load_lines lines w = (Return tt, w') ->
  environ w' = environ w ∪ list_to_map (omap parse_line lines).
Proof.
  revert w. induction lines as [|line rest IH]; intros w; simpl.
  - intros [= <-]. simpl. by rewrite (right_id_L ∅ (∪)).
  - unfold mbind, py_bind. rewrite load_line_spec.
    destruct (parse_line line) as [[k v]|]; simpl; [|by apply IH].
    case_bool_decide as Hk.
    + intros H. rewrite (IH _ H). destruct Hk as [x Hx].
      apply map_eq; intros i. rewrite !lookup_union.
      destruct (decide (k = i)) as [->|Hne].
      * rewrite Hx. by destruct (list_to_map _ !! i), (<[i:=v]> _ !! i).
      * by rewrite lookup_insert_ne.
    + destruct (environ_setitem_cases k v w) as [[e ->] | ->]; [done|].
      intros H. rewrite (IH _ H). simpl.
      rewrite <- insert_union_l. apply insert_union_r.
      by apply eq_None_not_Some.
Qed.

(** Loading the file keeps every entry of the environment and posts
    nothing; it returns or raises, it never exits. *)
Lemma load_file_frame w :
  exists r w',
    load_file w = (r, w') /\
    (r = Return tt \/ exists e, r = Raise e) /\
    environ w ⊆ environ w' /\ posted w' = posted w.
Proof.
  unfold load_file. destruct file as [|e|lines].
  - exists (Return tt), w. split_and!; eauto.
  - eexists (Raise e), _. split_and!; [reflexivity|eauto|done|done].
  - unfold mbind, py_bind, logger_info, log.
    destruct (load_lines_frame lines (add_log [(INFO, "Loading config from " +:+ config_file)] w))
      as (r & w' & -> & Hr & Hsub & _ & Hp).
    exists r, w'. by split_and!.
Qed.

Lemma load_config_spec w :
  load_config w =
    match load_file w with
    | (Return _, w1) => check_required w1
    | (Raise e, w1) => (Raise e, w1)
    | (SysExit c, w1) => (SysExit c, w1)
    end.
Proof.
  unfold load_config, check_required, mbind, py_bind.
  destruct (load_file w) as [[[]|e|c] w1]; try done.
  unfold getenv. cbn [environ add_log].
  destruct (truthy (environ w1 !! "BASE_URL")); [|done].
  destruct (truthy (environ w1 !! "CRON_SECRET")); [|done].
  cbn. by destruct (PyInt.int _).
Qed.




(** [fetch_sentiment_data] in one equation: one request is posted, the
    result and the records depend on what came back. *)
Lemma fetch_spec config w :
  fetch_sentiment_data config w =
    let req := sentiment_request config in
    let w1 := add_post req
                (add_log [(INFO, "🤖 Starting sentiment data fetch from " +:+ req_url req)] w) in
    match endpoint req with
    | inr e => (Return false, add_log [failure_record config e] w1)
    | inl resp => (Return (accepted resp), add_log (response_records config resp) w1)
    end.
Proof.
  unfold fetch_sentiment_data, try_except, mbind, py_bind, requests_post,
    logger_info, logger_error, log, sentiment_request, failure_record,
    response_records, accepted, mret, py_ret, raise.
  unfold failure_record. cbn [req_url].
  destruct (endpoint _) as [resp|e].
  - destruct (status_code resp =? 200).
    + destruct (json resp) as [[fields|ty]|e]; cbn.
      * f_equal. by norm_world.
      * f_equal. by norm_world.
      * destruct (is_Timeout e), (is_RequestException e), (is_JSONDecodeError e);
          cbn; f_equal; by norm_world.
    + cbn. f_equal. by norm_world.
  - destruct (is_Timeout e), (is_RequestException e), (is_JSONDecodeError e);
      cbn; f_equal; by norm_world.
Qed.

(** [main] in one equation. *)
Lemma main_spec w :
  main w =
    match load_config (add_log banner w) with
    | (Return config, w1) =>
        match fetch_sentiment_data config (add_log [config_loaded_record config] w1) with
        | (Return true, w2) =>
            (SysExit 0,
             add_log [(INFO, "✅ Sentiment analysis cron job completed successfully");
                      (INFO, rule)] w2)
        | (Return false, w2) =>
            (SysExit 1,
             add_log [(ERROR, "❌ Sentiment analysis cron job failed"); (INFO, rule)] w2)
        | (Raise e, w2) => (SysExit 1, add_log (fatal_records e) w2)
        | (SysExit c, w2) => (SysExit c, w2)
        end
    | (Raise e, w1) => (SysExit 1, add_log (fatal_records e) w1)
    | (SysExit c, w1) => (SysExit c, w1)
    end.
Proof.
  unfold main, try_except, mbind, py_bind, logger_info, logger_error, log,
    sys_exit, banner, fatal_records, config_loaded_record.
  rewrite !add_log_add_log. cbn [app].
  destruct (load_config _) as [[config|e|c] w1]; [| |done].
  - destruct (fetch_sentiment_data config _) as [[[]|e|c] w2];
      rewrite ?add_log_add_log; done.
  - by rewrite add_log_add_log.
Qed.

(** ** Frame facts: what each step leaves alone *)

Lemma check_required_frame w1 :
  environ (snd (check_required w1)) = environ w1 /\
  posted (snd (check_required w1)) = posted w1 /\
  (forall c, fst (check_required w1) = SysExit c -> c = 1).
Proof.
  unfold check_required.
  destruct (truthy (environ w1 !! "BASE_URL")); cbn; [|by split_and!; [..|intros c [= <-]]].
  destruct (truthy (environ w1 !! "CRON_SECRET")); cbn; [|by split_and!; [..|intros c [= <-]]].
  by destruct (PyInt.int _).
Qed.

Lemma load_config_frame w :
  environ w ⊆ environ (snd (load_config w)) /\
  posted (snd (load_config w)) = posted w /\
  (forall c, fst (load_config w) = SysExit c -> c = 1).
Proof.
  rewrite load_config_spec.
  destruct (load_file_frame w) as (r & w1 & -> & [-> | [e ->]] & Hsub & Hp); [|done].
  destruct (check_required_frame w1) as (He & Hq & Hc).
  split_and!; [by rewrite He | by rewrite Hq | done].
Qed.

(** [load_config] hands out a configuration only when both required
    variables are non-empty and the timeout text converts. *)
Lemma load_config_returns w config w1 :
  load_config w = (Return config, w1) ->
  load_file w = (Return tt, w1) /\
  truthy (environ w1 !! "BASE_URL") = true /\
  truthy (environ w1 !! "CRON_SECRET") = true /\
  base_url config =
    PyStr.rstrip (PyStr.is_char "/") (default "" (environ w1 !! "BASE_URL")) /\
  cron_secret config = default "" (environ w1 !! "CRON_SECRET") /\
  PyInt.int (default "300" (environ w1 !! "REQUEST_TIMEOUT")) = inl (timeout config).
Proof.
  rewrite load_config_spec.
  destruct (load_file w) as [[[]|e|c] w0]; [|done..].
  unfold check_required.
  destruct (truthy (environ w0 !! "BASE_URL")) eqn:Hb; [|done].
  destruct (truthy (environ w0 !! "CRON_SECRET")) eqn:Hs; [|done].
  cbn. destruct (PyInt.int _) as [n|msg] eqn:E; [|done].
  intros [= <- <-]. by rewrite Hb, Hs, E.
Qed.

Lemma fetch_frame config w :
  environ (snd (fetch_sentiment_data config w)) = environ w /\
  posted (snd (fetch_sentiment_data config w)) = (posted w ++ [sentiment_request config]) /\
  exists b, fst (fetch_sentiment_data config w) = Return b.
Proof.
  rewrite fetch_spec. cbn zeta.
  destruct (endpoint _) as [resp|e]; cbn; eauto.
Qed.

(** A run posts at most the one request of the loaded configuration. *)
Lemma main_frame w :
  environ w ⊆ environ (snd (main w)) /\
  (posted (snd (main w)) = posted w \/
   exists config w1,
     load_config (add_log banner w) = (Return config, w1) /\
     posted (snd (main w)) = (posted w ++ [sentiment_request config])).
Proof.
  rewrite main_spec.
  destruct (load_config_frame (add_log banner w)) as (Hsub & Hp & _).
  destruct (load_config _) as [[config|e|c] w1] eqn:E; cbn in *; [|by split; [|left]..].
  destruct (fetch_frame config (add_log [config_loaded_record config] w1))
    as (He & Hq & b & Hb).
  destruct (fetch_sentiment_data config _) as [r w2]; cbn in *. subst r.
  assert (environ w ⊆ environ w2) by (by rewrite He).
  assert (posted w2 = (posted w ++ [sentiment_request config])) by (by rewrite Hq, Hp).
  destruct b; cbn; split; eauto.
Qed.

(** ** The fetch client *)

Lemma accepted_iff resp :
  accepted resp = true <-> status_code resp = 200 /\ parses_as_json_object resp.
Proof.
  unfold accepted, parses_as_json_object. rewrite andb_true_iff, Z.eqb_eq.
  split; intros [Hs Hj]; (split; [done|]).
  - destruct (json resp) as [[fields|ty]|e]; [by eauto|done..].
  - by destruct Hj as [fields ->].
Qed.

(** What decides the result of the fetch: when the endpoint answers with
    a response, [fetch_sentiment_data] returns, and it returns success if
    and only if the status code is 200 and the body parses as a JSON
    object; for every other status code it returns failure after logging
    the status code and the raw body. *)
Theorem fetch_success_iff_200_json_object config w resp :
  endpoint (sentiment_request config) = inl resp ->
  (exists b, fst (fetch_sentiment_data config w) = Return b) /\
  (fst (fetch_sentiment_data config w) = Return true <->
     status_code resp = 200 /\ parses_as_json_object resp) /\
  (status_code resp <> 200 ->
     fst (fetch_sentiment_data config w) = Return false /\
     logged (snd (fetch_sentiment_data config w)) =
       (logged w ++
        [(INFO, "🤖 Starting sentiment data fetch from " +:+ req_url (sentiment_request config));
         (INFO, "📡 Response status: " +:+ pretty (status_code resp));
         (ERROR, "❌ Request failed with status " +:+ pretty (status_code resp));
         (ERROR, "Response: " +:+ text resp)])).
Proof.
  intros Hresp. rewrite fetch_spec. cbn zeta. rewrite Hresp. cbn [fst snd].
  split_and!; [by eauto| |].
  - rewrite <- accepted_iff. split; [by intros [= ->]|by intros ->].
  - intros Hne. apply Z.eqb_neq in Hne.
    unfold accepted, response_records. rewrite Hne. cbn.
    split; [done|]. by rewrite <- app_assoc.
Qed.

(** C2: every run ends in [sys.exit]; the status is 0 exactly when the
    fetch client was reached and reported success, and 1 otherwise. *)
Theorem main_exit_status w :
  exists c,
    fst (main w) = SysExit c /\
    exit_status (fst (main w)) = c /\
    (c = 0 <-> fetch_reports_success w) /\
    (c <> 0 -> c = 1).
Proof.
  unfold fetch_reports_success. rewrite main_spec.
  destruct (load_config_frame (add_log banner w)) as (_ & _ & Hc).
  destruct (load_config _) as [[config|e|c] w1]; cbn in *.
  - destruct (fetch_frame config (add_log [config_loaded_record config] w1))
      as (_ & _ & b & Hb).
    destruct (fetch_sentiment_data config _) as [r w2] eqn:Hfetch; cbn in *. subst r.
    destruct b; cbn.
    + exists 0. split_and!; try done. split; [|done]. intros _. by exists config, w1, w2.
    + exists 1. split_and!; try done. split; [done|].
      intros (config' & w1' & w2' & Ha & Hb'). injection Ha as <- <-.
      rewrite Hfetch in Hb'. done.
  - exists 1. split_and!; try done. split; [done|]. by intros (? & ? & ? & [=] & _).
  - exists c. rewrite (Hc c eq_refl). split_and!; try done.
    split; [done|]. by intros (? & ? & ? & [=] & _).
Qed.

(** ** The required variables *)

(** The check of the two required variables fails as soon as one of
    them is absent or empty. *)
Lemma check_required_falsy w1 :
  truthy (environ w1 !! "BASE_URL") = false \/
  truthy (environ w1 !! "CRON_SECRET") = false ->
  check_required w1 = (SysExit 1, add_log [required_record w1] w1) /\
  truthy (environ w1 !! reported_variable w1) = false.
Proof.
  unfold check_required, required_record, reported_variable.
  destruct (truthy (environ w1 !! "BASE_URL")) eqn:Hb; cbn.
  - intros [|Hs]; [done|]. by rewrite Hs.
  - done.
Qed.

Lemma truthy_false o : truthy o = false <-> o = None \/ o = Some "".
Proof.
  destruct o as [[|c r]|]; cbn; split; try done; eauto; by intros [|].
Qed.

Lemma main_of_failed_check w w1 :
  load_file (add_log banner w) = (Return tt, w1) ->
  truthy (environ w1 !! "BASE_URL") = false \/
  truthy (environ w1 !! "CRON_SECRET") = false ->
  main w = (SysExit 1, add_log [required_record w1] w1).
Proof.
  intros Hl Hf. rewrite main_spec, load_config_spec, Hl.
  by destruct (check_required_falsy w1 Hf) as [-> _].
Qed.

(** C3: if, once the file is loaded, BASE_URL or CRON_SECRET is absent,
    [load_config] logs the error naming a missing variable and raises
    [SystemExit(1)]; the run exits with status 1 and no request has been
    posted. *)
Theorem missing_required_exits w0 w1 :
  load_file w0 = (Return tt, w1) ->
  environ w1 !! "BASE_URL" = None \/ environ w1 !! "CRON_SECRET" = None ->
  let w2 := add_log [required_record w1] w1 in
  (environ w1 !! reported_variable w1 = None \/
   environ w1 !! reported_variable w1 = Some "") /\
  load_config w0 = (SysExit 1, w2) /\
  posted w2 = posted w0 /\
  (forall w, add_log banner w = w0 ->
     main w = (SysExit 1, w2) /\ exit_status (fst (main w)) = 1 /\
     posted (snd (main w)) = posted w).
Proof.
  intros Hl Habs w2.
  assert (truthy (environ w1 !! "BASE_URL") = false \/
          truthy (environ w1 !! "CRON_SECRET") = false) as Hf.
  { destruct Habs as [-> | ->]; [left | right]; done. }
  destruct (check_required_falsy w1 Hf) as [Hc Hr].
  destruct (load_file_frame w0) as (r & w1' & Hl' & _ & _ & Hp).
  rewrite Hl in Hl'. injection Hl' as <- <-.
  split_and!.
  - by apply truthy_false.
  - by rewrite load_config_spec, Hl.
  - done.
  - intros w <-. rewrite (main_of_failed_check w w1 Hl Hf). by split_and!.
Qed.

(** C9: if, once the file is loaded, BASE_URL or CRON_SECRET is set to
    the empty string, [load_config] logs the missing-variable error and
    raises [SystemExit(1)], the run exits with status 1 without posting
    a request, and the check of the required variables gives the result
    and the records it gives when that variable is absent. *)
Theorem empty_required_like_absent w0 w1 :
  load_file w0 = (Return tt, w1) ->
  environ w1 !! "BASE_URL" = Some "" \/ environ w1 !! "CRON_SECRET" = Some "" ->
  let w2 := add_log [required_record w1] w1 in
  load_config w0 = (SysExit 1, w2) /\
  posted w2 = posted w0 /\
  (forall w, add_log banner w = w0 ->
     main w = (SysExit 1, w2) /\ exit_status (fst (main w)) = 1 /\
     posted (snd (main w)) = posted w) /\
  (forall key, key = "BASE_URL" \/ key = "CRON_SECRET" ->
     environ w1 !! key = Some "" ->
     fst (check_required (unset key w1)) = fst (check_required w1) /\
     logged (snd (check_required (unset key w1))) = logged (snd (check_required w1)) /\
     posted (snd (check_required (unset key w1))) = posted (snd (check_required w1))).
Proof.
  intros Hl Hempty w2.
  assert (truthy (environ w1 !! "BASE_URL") = false \/
          truthy (environ w1 !! "CRON_SECRET") = false) as Hf.
  { destruct Hempty as [-> | ->]; [left | right]; done. }
  destruct (check_required_falsy w1 Hf) as [Hc _].
  destruct (load_file_frame w0) as (r & w1' & Hl' & _ & _ & Hp).
  rewrite Hl in Hl'. injection Hl' as <- <-.
  split_and!.
  - by rewrite load_config_spec, Hl.
  - done.
  - intros w <-. rewrite (main_of_failed_check w w1 Hl Hf). by split_and!.
  - intros key [-> | ->] Hk; unfold check_required, unset; cbn [environ].
    + rewrite lookup_delete_eq, Hk. done.
    + rewrite lookup_delete_ne by done. rewrite lookup_delete_eq, Hk.
      by destruct (truthy (environ w1 !! "BASE_URL")).
Qed.

(** ** The config file and the environment *)

(** C4: a line of the config file sets its key only when the key is not
    in the environment; every entry the environment had before
    [load_config] keeps its value, through the whole run; so when the
    environment defines BASE_URL, the base URL of the configuration and
    of the request is that value (normalised), whatever the file says. *)
Theorem environment_takes_precedence w :
  (forall line,
     load_line line w = (Return tt, w) \/
     (exists e, load_line line w = (Raise e, w)) \/
     (exists k v, parse_line line = Some (k, v) /\ environ w !! k = None /\
                  load_line line w = (Return tt, set_env k v w))) /\
  (forall k v, environ w !! k = Some v ->
     environ (snd (load_config w)) !! k = Some v /\
     environ (snd (main w)) !! k = Some v) /\
  (forall w1, load_file w = (Return tt, w1) ->
     match file with
     | Lines lines => environ w1 = environ w ∪ list_to_map (omap parse_line lines)
     | _ => environ w1 = environ w
     end) /\
  (forall u, environ w !! "BASE_URL" = Some u ->
     (forall config w1, load_config w = (Return config, w1) ->
        base_url config = PyStr.rstrip (PyStr.is_char "/") u /\
        (PyStr.endswith "/" u = false -> base_url config = u)) /\
     (forall r, r ∈ posted (snd (main w)) ->
        r ∈ posted w \/
        req_url r = PyStr.rstrip (PyStr.is_char "/") u +:+ "/api/cron/sentiment-data")).
Proof.
  split_and!.
  - intros line. apply load_line_cases.
  - intros k v Hk. destruct (load_config_frame w) as (Hsub & _).
    destruct (main_frame w) as (Hsub' & _).
    split; by eapply lookup_weaken.
  - intros w1. unfold load_file. destruct file as [|e|lines].
    + by intros [= <-].
    + done.
    + unfold mbind, py_bind, logger_info, log. intros H.
      by rewrite (load_lines_merge _ _ _ H).
  - intros u Hu.
    assert (forall w0 config w1, environ w0 !! "BASE_URL" = Some u ->
              load_config w0 = (Return config, w1) ->
              base_url config = PyStr.rstrip (PyStr.is_char "/") u) as Hbase.
    { intros w0 config w1 Hu0 Hc.
      destruct (load_config_frame w0) as (Hsub & _). rewrite Hc in Hsub.
      apply load_config_returns in Hc as (_ & _ & _ & -> & _).
      cbn in Hsub. by rewrite (lookup_weaken _ _ _ _ Hu0 Hsub). }
    split.
    + intros config w1 Hc. rewrite (Hbase w config w1 Hu Hc).
      split; [done|]. apply rstrip_id.
    + intros r Hr. destruct (main_frame w) as (_ & [Hp | (config & w1 & Hc & Hp)]);
        rewrite Hp in Hr; [by left|].
      apply elem_of_app in Hr as [Hr | Hr]; [by left|]. right.
      apply list_elem_of_singleton in Hr as ->. cbn.
      by rewrite (Hbase (add_log banner w) config w1 Hu Hc).
Qed.

(** C5 (as amended): the base URL of the configuration is the value of
    BASE_URL with its whole run of trailing slashes removed, it does
    not end in a slash, and the URL of the request is that base followed
    by [/api/cron/sentiment-data]; for [http://example.com/] this is
    [http://example.com/api/cron/sentiment-data]. *)
Theorem base_url_trailing_slashes_removed w config w1 :
  load_config w = (Return config, w1) ->
  exists u,
    environ w1 !! "BASE_URL" = Some u /\
    base_url config = PyStr.rstrip (PyStr.is_char "/") u /\
    (exists n, u = base_url config +:+ PyStr.repeat_char "/" n) /\
    PyStr.endswith "/" (base_url config) = false /\
    (forall w', posted (snd (fetch_sentiment_data config w')) =
                posted w' ++ [sentiment_request config]) /\
    req_url (sentiment_request config) = base_url config +:+ "/api/cron/sentiment-data" /\
    (u = "http://example.com/" ->
     req_url (sentiment_request config) = "http://example.com/api/cron/sentiment-data").
Proof.
  intros Hc. apply load_config_returns in Hc as (_ & Hb & _ & Hbase & _).
  destruct (environ w1 !! "BASE_URL") as [u|] eqn:Hu; [|done].
  exists u. cbn in Hbase. split_and!.
  - done.
  - done.
  - rewrite Hbase. apply rstrip_run.
  - rewrite Hbase. apply rstrip_no_trailing.
  - intros w'. apply fetch_frame.
  - done.
  - intros ->. cbn. by rewrite Hbase.
Qed.

(** ** Failures of the fetch *)

(** A response with status 200 whose body does not decode makes the
    fetch fail, whatever the class of the decoding error. *)
Lemma malformed_response_fails config w resp e :
  endpoint (sentiment_request config) = inl resp ->
  status_code resp = 200 ->
  json resp = inr e ->
  fetch_sentiment_data config w =
    (Return false,
     add_log [(INFO, "📡 Response status: 200"); failure_record config e]
       (add_post (sentiment_request config)
          (add_log [(INFO, "🤖 Starting sentiment data fetch from "
                           +:+ req_url (sentiment_request config))] w))).
Proof.
  intros Hresp Hs Hj. rewrite fetch_spec. cbn zeta. rewrite Hresp.
  unfold accepted, response_records. by rewrite Hs, Hj.
Qed.

(** The dedicated handler is reached by a decoding error that is not
    a [RequestException]. *)
Lemma decode_error_outside_requests_is_parse_failure config w resp e :
  endpoint (sentiment_request config) = inl resp ->
  status_code resp = 200 ->
  json resp = inr e ->
  is_Timeout e = false -> is_RequestException e = false -> is_JSONDecodeError e = true ->
  (ERROR, "❌ Failed to parse JSON response: " +:+ exn_str e)
    ∈ logged (snd (fetch_sentiment_data config w)).
Proof.
  intros Hresp Hs Hj Ht Hr Hd.
  rewrite (malformed_response_fails config w resp e Hresp Hs Hj).
  unfold failure_record. rewrite Ht, Hr, Hd. cbn.
  apply elem_of_app. right. apply list_elem_of_further, list_elem_of_here.
Qed.

(** C6 (the code at the failing input): with the decoding error of
    [requests], the [except RequestException] clause comes first: the
    fetch fails, and the records it adds are the start of the fetch, the
    status and the generic request-failure record; the JSON parse-failure
    record is not among them. *)
Theorem json_decode_error_logged_as_request_failure config w resp msg :
  endpoint (sentiment_request config) = inl resp ->
  status_code resp = 200 ->
  json resp = inr (requests_JSONDecodeError msg) ->
  let records :=
    [(INFO, "🤖 Starting sentiment data fetch from " +:+ req_url (sentiment_request config));
     (INFO, "📡 Response status: 200");
     (ERROR, "❌ Request failed: " +:+ msg)] in
  fst (fetch_sentiment_data config w) = Return false /\
  logged (snd (fetch_sentiment_data config w)) = logged w ++ records /\
  (ERROR, "❌ Failed to parse JSON response: " +:+ msg) ∉ records.
Proof.
  intros Hresp Hs Hj records.
  rewrite (malformed_response_fails config w resp _ Hresp Hs Hj).
  split_and!.
  - done.
  - cbn. by rewrite <- app_assoc.
  - unfold records. rewrite !not_elem_of_cons.
    split_and!; [done|done| |apply not_elem_of_nil].
    cbn. by intros [=].
Qed.

(** C7: a call of [fetch_sentiment_data] posts exactly one request,
    whatever comes back, and returns; when the call times out it logs the
    configured timeout and returns failure; a whole run posts one
    request at most. *)
Theorem one_attempt_and_timeout config w :
  posted (snd (fetch_sentiment_data config w)) = posted w ++ [sentiment_request config] /\
  (exists b, fst (fetch_sentiment_data config w) = Return b) /\
  (forall e,
     endpoint (sentiment_request config) = inr e -> is_Timeout e = true ->
     fst (fetch_sentiment_data config w) = Return false /\
     logged (snd (fetch_sentiment_data config w)) =
       logged w ++
       [(INFO, "🤖 Starting sentiment data fetch from " +:+ req_url (sentiment_request config));
        (ERROR, "⏰ Request timed out after " +:+ pretty (timeout config) +:+ " seconds")]) /\
  (length (posted (snd (main w))) <= length (posted w) + 1)%nat.
Proof.
  destruct (fetch_frame config w) as (_ & Hp & Hb).
  split_and!; [done..| |].
  - intros e He Ht. rewrite fetch_spec. cbn zeta. rewrite He.
    unfold failure_record. rewrite Ht. cbn. by rewrite <- app_assoc.
  - destruct (main_frame w) as (_ & [-> | (c & w1 & _ & ->)]);
      rewrite ?length_app; cbn; lia.
Qed.

(** ** The timeout *)



(** A run whose timeout text does not convert posts nothing and exits
    with status 1, whether the file was read or raised, and whichever
    check stops it. *)
Lemma main_of_invalid_timeout w s e :
  environ (snd (load_file (add_log banner w))) !! "REQUEST_TIMEOUT" = Some s ->
  PyInt.int s = inr e ->
  fst (main w) = SysExit 1 /\ posted (snd (main w)) = posted w.
Proof.
  intros Hsome Hi.
  destruct (load_file_frame (add_log banner w)) as (r & w1 & Hl & Hr & _ & Hp).
  rewrite Hl in Hsome. cbn in Hsome, Hp.
  rewrite main_spec, load_config_spec, Hl.
  destruct Hr as [-> | [e' ->]]; [|done].
  unfold check_required.
  rewrite Hsome. change (default "300" (Some s)) with s. rewrite Hi.
  destruct (truthy (environ w1 !! "BASE_URL")); [|done].
  by destruct (truthy (environ w1 !! "CRON_SECRET")).
Qed.

(** C10 (as amended): when REQUEST_TIMEOUT, as the environment holds
    it once [load_config] is done with the config file, is a text [int]
    rejects, the run exits with status 1 and posts no request; and when
    the file was read without an exception and BASE_URL and CRON_SECRET
    are non-empty, [load_config] raises the [ValueError] of the
    conversion, which [main] catches: the fatal error is logged with its
    message and the run exits with status 1. *)
Theorem invalid_timeout_is_fatal w s e :
  let w1 := snd (load_file (add_log banner w)) in
  environ w1 !! "REQUEST_TIMEOUT" = Some s ->
  PyInt.int s = inr e ->
  (fst (main w) = SysExit 1 /\ exit_status (fst (main w)) = 1 /\
   posted (snd (main w)) = posted w) /\
  (fst (load_file (add_log banner w)) = Return tt ->
   truthy (environ w1 !! "BASE_URL") = true ->
   truthy (environ w1 !! "CRON_SECRET") = true ->
   load_config (add_log banner w) = (Raise (ValueError (PyInt.message repr s e)), w1) /\
   main w =
     (SysExit 1,
      add_log [(ERROR, "❌ Fatal error in cron job: " +:+ PyInt.message repr s e);
               (INFO, rule)] w1)).
Proof.
  intros w1 Hsome Hi.
  destruct (main_of_invalid_timeout w s e Hsome Hi) as [Hm Hp].
  split; [by rewrite Hm|].
  intros Hret Hb Hs.
  assert (load_file (add_log banner w) = (Return tt, w1)) as Hl.
  { unfold w1. destruct (load_file (add_log banner w)) as [r w']. cbn in Hret. by subst r. }
  assert (load_config (add_log banner w)
          = (Raise (ValueError (PyInt.message repr s e)), w1)) as Hc.
  { rewrite load_config_spec, Hl. unfold check_required.
    rewrite Hb, Hs, Hsome. change (default "300" (Some s)) with s. by rewrite Hi. }
  split; [done|]. by rewrite main_spec, Hc.
Qed.

(** ** More on the lines of [config.env] *)

Lemma contains_app a p t :
  PyStr.contains a (p +:+ t) = PyStr.contains a p || PyStr.contains a t.
Proof. induction p as [|c r IH]; simpl; [done|]. by rewrite IH, orb_assoc. Qed.

(** [s.lstrip()] is an end of [s] ... *)
Lemma lstrip_from_suffix s skip : exists p, s = p +:+ PyStr.lstrip_from skip s.
Proof.
  revert skip. induction s as [|b r IH]; intros skip; [by exists EmptyString|].
  destruct skip as [|k]; cbn [PyStr.lstrip_from].
  - destruct (PyStr.first_char b r) as [cp len]. destruct (PyStr.isspace cp).
    + destruct (IH (Nat.pred len)) as [p Hp]. exists (String b p). by rewrite Hp at 1.
    + by exists EmptyString.
  - destruct (IH k) as [p Hp]. exists (String b p). by rewrite Hp at 1.
Qed.

(** ... and [s.rstrip()] a start of it, followed by whitespace only. *)
Lemma rstrip_space_prefix s :
  exists q, s = PyStr.rstrip_space s +:+ q /\ PyStr.lstrip_space q = EmptyString.
Proof.
  induction s as [|b r IH]; [by exists EmptyString|].
  cbn [PyStr.rstrip_space].
  destruct (PyStr.lstrip_space (String b r)) as [|c t] eqn:E; cbn [PyStr.nonempty].
  - by exists (String b r).
  - destruct IH as (q & Hq & Hws). exists q. split; [|done]. by rewrite Hq at 1.
Qed.

Lemma contains_strip a s :
  PyStr.contains a s = false -> PyStr.contains a (PyStr.strip s) = false.
Proof.
  intros H. unfold PyStr.strip, PyStr.lstrip_space.
  destruct (rstrip_space_prefix s) as (q & Hq & _).
  destruct (lstrip_from_suffix (PyStr.rstrip_space s) 0) as [p Hp].
  rewrite Hq, Hp, !contains_app in H.
  by repeat (apply orb_false_elim in H as [H ?]).
Qed.

Lemma append_assoc' (a b c : string) : (a +:+ b) +:+ c = a +:+ (b +:+ c).
Proof.
  induction a as [|x a IH]; [done|].
  change (String x ((a +:+ b) +:+ c) = String x (a +:+ (b +:+ c))). by rewrite IH.
Qed.

Lemma isspace_small cp : PyStr.isspace cp = true -> (cp <= 0x3000)%N.
Proof.
  unfold PyStr.isspace. rewrite !orb_true_iff, !andb_true_iff, !N.leb_le, !N.eqb_eq. lia.
Qed.

(** The length [first_char] gives is that of bytes that are there. *)
Lemma first_char_len b r :
  (1 <= snd (PyStr.first_char b r) <= S (String.length r))%nat.
Proof.
  unfold PyStr.first_char.
  destruct r as [|b1 [|b2 [|b3 r3]]]; repeat case_match; cbn; lia.
Qed.

(** A whitespace character is read from its own bytes: what follows
    does not change it. *)
Lemma first_char_app b r q :
  PyStr.isspace (fst (PyStr.first_char b r)) = true ->
  PyStr.first_char b (r +:+ q) = PyStr.first_char b r.
Proof.
  assert (forall n, PyStr.isspace (0xDC00 + n) = true -> False) as Hstray.
  { intros n H%isspace_small. lia. }
  unfold PyStr.first_char. cbv zeta.
  destruct (N_of_ascii b <? 0x80)%N; [done|].
  destruct r as [|b1 r1]; [by intros ?%Hstray|].
  change (String b1 r1 +:+ q) with (String b1 (r1 +:+ q)). cbv beta iota.
  destruct (negb (PyStr.is_cont (N_of_ascii b1))); [by intros ?%Hstray|].
  destruct ((0xC2 <=? N_of_ascii b) && (N_of_ascii b <=? 0xDF))%N; [done|].
  destruct r1 as [|b2 r2]; [by intros ?%Hstray|].
  change (String b2 r2 +:+ q) with (String b2 (r2 +:+ q)). cbv beta iota.
  destruct (negb (PyStr.is_cont (N_of_ascii b2))); [by intros ?%Hstray|].
  destruct ((0xE0 <=? N_of_ascii b) && (N_of_ascii b <=? 0xEF))%N; [done|].
  destruct r2 as [|b3 r3]; [by intros ?%Hstray|done].
Qed.

(** A text that is whitespace to its end is read the same way with
    more text behind it. *)
Lemma lstrip_from_app x skip q :
  (skip <= String.length x)%nat ->
  PyStr.lstrip_from skip x = EmptyString ->
  PyStr.lstrip_from skip (x +:+ q) = PyStr.lstrip_from 0 q.
Proof.
  revert skip. induction x as [|b r IH]; intros skip Hlen H.
  - by replace skip with 0%nat by (cbn in Hlen; lia).
  - change (String b r +:+ q) with (String b (r +:+ q)).
    destruct skip as [|k]; cbn [PyStr.lstrip_from] in *.
    + pose proof (first_char_len b r) as Hfl.
      destruct (PyStr.first_char b r) as [cp len] eqn:E.
      destruct (PyStr.isspace cp) eqn:Hsp; [|done].
      rewrite first_char_app, E, Hsp by (by rewrite E).
      apply IH; [cbn in Hfl; lia | done].
    + apply IH; [cbn in Hlen; lia | done].
Qed.

Lemma lstrip_from_idem s skip :
  PyStr.lstrip_from 0 (PyStr.lstrip_from skip s) = PyStr.lstrip_from skip s.
Proof.
  revert skip. induction s as [|b r IH]; intros skip; [by destruct skip|].
  destruct skip as [|k]; cbn [PyStr.lstrip_from]; [|apply IH].
  destruct (PyStr.first_char b r) as [cp len] eqn:E.
  destruct (PyStr.isspace cp) eqn:Hsp; [apply IH|].
  cbn [PyStr.lstrip_from]. by rewrite E, Hsp.
Qed.

(** No end of [s.rstrip()] is whitespace only. *)
Lemma rstrip_space_clean s p u :
  PyStr.rstrip_space s = p +:+ u -> u <> EmptyString ->
  PyStr.lstrip_space u <> EmptyString.
Proof.
  revert p. induction s as [|b r IH]; intros p Hs Hu.
  - destruct p, u; done.
  - cbn [PyStr.rstrip_space] in Hs.
    destruct (PyStr.lstrip_space (String b r)) as [|c t] eqn:E; cbn [PyStr.nonempty] in Hs.
    + destruct p, u; done.
    + destruct p as [|x p].
      * change (EmptyString +:+ u) with u in Hs. subst u. intros Hall.
        destruct (rstrip_space_prefix r) as (q & Hq & Hws).
        assert (PyStr.lstrip_space (String b r) = EmptyString); [|congruence].
        rewrite Hq. change (String b (PyStr.rstrip_space r +:+ q))
          with (String b (PyStr.rstrip_space r) +:+ q).
        unfold PyStr.lstrip_space in *. rewrite lstrip_from_app; [done | lia | done].
      * change (String x p +:+ u) with (String x (p +:+ u)) in Hs.
        injection Hs as -> Hs. by apply (IH p).
Qed.

(** A text no end of which is whitespace only is left alone by
    [rstrip]. *)
Lemma rstrip_space_fixed t :
  (forall p u, t = p +:+ u -> u <> EmptyString -> PyStr.lstrip_space u <> EmptyString) ->
  PyStr.rstrip_space t = t.
Proof.
  induction t as [|b r IH]; intros Hclean; [done|].
  cbn [PyStr.rstrip_space].
  destruct (PyStr.lstrip_space (String b r)) as [|c t] eqn:E; cbn [PyStr.nonempty].
  - by destruct (Hclean EmptyString (String b r)).
  - rewrite IH; [done|]. intros p u ->. by apply (Hclean (String b p)).
Qed.

(** [s.strip().strip() == s.strip()] *)
Lemma strip_idem s : PyStr.strip (PyStr.strip s) = PyStr.strip s.
Proof.
  unfold PyStr.strip, PyStr.lstrip_space.
  rewrite rstrip_space_fixed; [apply lstrip_from_idem|].
  intros p u Hpu.
  destruct (lstrip_from_suffix (PyStr.rstrip_space s) 0) as [p0 Hp0].
  apply (rstrip_space_clean s (p0 +:+ p)).
  by rewrite Hp0 at 1; rewrite Hpu, append_assoc'.
Qed.

(** [s.split(c, 1)] cuts at the first [c]: the head has no [c], and
    head, [c] and tail give [s] back. *)
Lemma split1_cut a s h t :
  PyStr.split1 a s = [h; t] ->
  PyStr.contains a h = false /\ s = h +:+ String a t.
Proof.
  revert h. induction s as [|c r IH]; intros h; simpl; [done|].
  unfold PyStr.is_char at 1. case_bool_decide as Hc.
  - intros [= <- <-]. by subst c.
  - destruct (PyStr.split1 a r) as [|h' [|t' [|]]] eqn:E; try done.
    intros [= <- <-]. destruct (IH h' eq_refl) as [Hh ->].
    split; [|done]. simpl. unfold PyStr.is_char. by rewrite bool_decide_eq_false_2.
Qed.

Lemma split1_of_cut a h t :
  PyStr.contains a h = false -> PyStr.split1 a (h +:+ String a t) = [h; t].
Proof.
  induction h as [|c r IH]; simpl.
  - intros _. unfold PyStr.is_char. by rewrite bool_decide_eq_true_2.
  - intros H. apply orb_false_elim in H as [Hc Hr]. by rewrite Hc, (IH Hr).
Qed.

Lemma contains_cut a h t : PyStr.contains a (h +:+ String a t) = true.
Proof.
  induction h as [|c r IH]; simpl.
  - unfold PyStr.is_char. by rewrite bool_decide_eq_true_2.
  - rewrite IH. apply orb_true_r.
Qed.

(** X2: a line [KEY=VALUE] is cut at its first [=], so the value keeps
    any further [=]; key and value are stripped of surrounding whitespace; the
    variable is set only when the key is not in the environment yet. *)
Theorem config_line_pair line key value w :
  PyStr.strip line = key +:+ String "=" value ->
  PyStr.contains "=" key = false ->
  PyStr.startswith "#" key = false ->
  (is_Some (environ w !! PyStr.strip key) -> load_line line w = (Return tt, w)) /\
  (environ w !! PyStr.strip key = None ->
   load_line line w = environ_setitem (PyStr.strip key) (PyStr.strip value) w).
Proof.
  intros Hline Hkey Hhash. unfold load_line. rewrite Hline.
  rewrite contains_cut, (split1_of_cut _ _ _ Hkey).
  assert (PyStr.nonempty (key +:+ String "=" value) = true) as -> by (by destruct key).
  assert (PyStr.startswith "#" (key +:+ String "=" value) = false) as ->.
  { destruct key; [done | exact Hhash]. }
  cbn [andb negb]. unfold mbind, py_bind, in_environ.
  split; intros H.
  - by rewrite bool_decide_eq_true_2.
  - rewrite bool_decide_eq_false_2; [done|]. rewrite H. by intros [? [=]].
Qed.

Lemma parse_line_clean line k v :
  parse_line line = Some (k, v) ->
  PyStr.strip k = k /\ PyStr.strip v = v /\ PyStr.contains "=" k = false.
Proof.
  unfold parse_line.
  destruct (PyStr.nonempty _ && negb _ && PyStr.contains "=" _); [|done].
  destruct (PyStr.split1 "=" (PyStr.strip line)) as [|h [|t [|]]] eqn:E; try done.
  intros [= <- <-]. destruct (split1_cut _ _ _ _ E) as [Hh _].
  split_and!; [apply strip_idem | apply strip_idem | by apply contains_strip].
Qed.

(** X3: a variable whose entry a line of the file changes was absent
    before, and the key and the value now set carry no surrounding whitespace;
    the key has no [=]. *)
Theorem config_line_sets_clean_pair line w w' k :
  load_line line w = (Return tt, w') ->
  environ w' !! k <> environ w !! k ->
  environ w !! k = None /\
  PyStr.strip k = k /\ PyStr.contains "=" k = false /\
  exists v, environ w' !! k = Some v /\ PyStr.strip v = v.
Proof.
  intros Hl Hne.
  destruct (load_line_cases line w) as [H | [[e H] | (k0 & v0 & Hp & Hk0 & H)]];
    rewrite H in Hl; [by injection Hl as <- | done |].
  injection Hl as <-. cbn in Hne |- *.
  destruct (decide (k0 = k)) as [<- | Hk]; [|by rewrite lookup_insert_ne in Hne].
  destruct (parse_line_clean line k0 v0 Hp) as (Hsk & Hsv & Heq).
  split_and!; try done. exists v0. by rewrite lookup_insert_eq.
Qed.

(** X4: a line whose key is not in the environment sets it when the key
    is non-empty and neither key nor value holds a NUL; otherwise the
    assignment raises and the state is left as it was. *)
Theorem config_line_sets_or_raises line k v w :
  parse_line line = Some (k, v) ->
  environ w !! k = None ->
  if PyStr.nonempty k && negb (PyStr.contains "000" k || PyStr.contains "000" v)
  then load_line line w = (Return tt, set_env k v w)
  else exists e, load_line line w = (Raise e, w).
Proof.
  intros Hp Hk. rewrite load_line_spec, Hp.
  rewrite bool_decide_eq_false_2 by (rewrite Hk; by intros [? [=]]).
  destruct (parse_line_clean line k v Hp) as (_ & _ & Heq).
  unfold environ_setitem. rewrite Heq.
  destruct (PyStr.contains "000" k || PyStr.contains "000" v); cbn.
  - rewrite andb_false_r. by eexists.
  - rewrite andb_true_r. destruct (PyStr.nonempty k); cbn; [done | by eexists].
Qed.

(** The loop returns when every key of the file is in the environment
    already, and then changes nothing. *)
Lemma load_lines_all_present lines w :
  (forall k v, (k, v) ∈ omap parse_line lines -> is_Some (environ w !! k)) ->
  load_lines lines w = (Return tt, w).
Proof.
  induction lines as [|line rest IH]; intros Hall; simpl; [done|].
  unfold mbind, py_bind. rewrite load_line_spec.
  destruct (parse_line line) as [[k v]|] eqn:Hp.
  - rewrite bool_decide_eq_true_2.
    + apply IH. intros k' v' Hin. apply (Hall k' v').
      cbn. rewrite Hp. by apply list_elem_of_further.
    + apply (Hall k v). cbn. rewrite Hp. apply list_elem_of_here.
  - apply IH. intros k' v' Hin. apply (Hall k' v'). cbn. by rewrite Hp.
Qed.

(** X5: when a key is defined more than once in the file and is not in
    the environment, the first definition is the one that stays. *)
Theorem first_definition_wins before line after k v w w' :
  load_lines (before ++ line :: after) w = (Return tt, w') ->
  environ w !! k = None ->
  (forall v0, (k, v0) ∉ omap parse_line before) ->
  parse_line line = Some (k, v) ->
  environ w' !! k = Some v.
Proof.
  intros Hl Hk Hbefore Hp.
  rewrite (load_lines_merge _ _ _ Hl), lookup_union_r by done.
  rewrite omap_app, list_to_map_app. cbn. rewrite Hp. cbn.
  rewrite lookup_union_r; [by rewrite lookup_insert_eq|].
  apply not_elem_of_list_to_map. intros Hin.
  apply list_elem_of_fmap in Hin as ([k0 v0] & Heq & Hin). cbn in Heq. subst k0.
  by apply (Hbefore v0).
Qed.

(** X6: loading is idempotent: once the loop has completed, running it
    again on the resulting state returns and changes nothing. *)
Theorem load_lines_idempotent lines w w' :
  load_lines lines w = (Return tt, w') ->
  load_lines lines w' = (Return tt, w').
Proof.
  intros Hl. apply load_lines_all_present. intros k v Hin.
  rewrite (load_lines_merge _ _ _ Hl), lookup_union.
  assert (is_Some (list_to_map (M := gmap string string) (omap parse_line lines) !! k))
    as [x ->].
  { apply not_eq_None_Some. intros Hnone.
    apply not_elem_of_list_to_map in Hnone. apply Hnone.
    apply list_elem_of_fmap. by exists (k, v). }
  by destruct (environ w !! k).
Qed.

(** ** More on [load_config] and [main] *)

Lemma load_lines_log lines w :
  logged (snd (load_lines lines w)) = logged w.
Proof.
  destruct (load_lines_frame lines w) as (r & w' & -> & _ & _ & Hl & _). done.
Qed.

Lemma load_file_log w :
  logged (snd (load_file w)) = logged w ++ loading_records.
Proof.
  unfold load_file, loading_records. destruct file as [|e|lines]; cbn.
  - by rewrite app_nil_r.
  - done.
  - unfold mbind, py_bind, logger_info, log. 
    pose proof (load_lines_log lines
                  (add_log [(INFO, "Loading config from " +:+ config_file)] w)) as H.
    by destruct (load_lines lines _) as [[[]|e|c] w'].
Qed.

(** X7: an exception while the file is opened or read (a failing
    [open], a name [putenv] refuses) ends the run at the outer handler:
    the fatal error is logged with the text of the exception, the run
    exits with status 1, and no request has been posted. *)
Theorem config_file_failure_is_fatal w w1 e :
  load_file (add_log banner w) = (Raise e, w1) ->
  main w =
    (SysExit 1,
     add_log [(ERROR, "❌ Fatal error in cron job: " +:+ exn_str e); (INFO, rule)] w1) /\
  posted (snd (main w)) = posted w.
Proof.
  intros Hl.
  destruct (load_file_frame (add_log banner w)) as (r & w1' & Hl' & _ & _ & Hp).
  rewrite Hl in Hl'. injection Hl' as <- <-.
  by rewrite main_spec, load_config_spec, Hl.
Qed.

(** X8: a configuration is handed out silently: [load_config] logs
    nothing besides the record that the file is being loaded, so neither
    the secret nor any other variable reaches the log through it. *)
Theorem load_config_success_log w config w1 :
  load_config w = (Return config, w1) ->
  logged w1 = logged w ++ loading_records /\ posted w1 = posted w.
Proof.
  intros Hc. destruct (load_config_frame w) as (_ & Hp & _). rewrite Hc in Hp.
  apply load_config_returns in Hc as (Hl & _).
  pose proof (load_file_log w) as Hlog. rewrite Hl in Hlog. done.
Qed.

(** X9: the one request of a run is built from the loaded environment:
    the URL is the normalised BASE_URL followed by the endpoint path, the
    headers are the JSON content type and the bearer token made of
    CRON_SECRET, the body is the empty JSON object and the timeout is the
    one read; nothing else is posted. *)
Theorem run_posts_configured_request w w1 u s n :
  load_file (add_log banner w) = (Return tt, w1) ->
  environ w1 !! "BASE_URL" = Some u -> PyStr.nonempty u = true ->
  environ w1 !! "CRON_SECRET" = Some s -> PyStr.nonempty s = true ->
  PyInt.int (default "300" (environ w1 !! "REQUEST_TIMEOUT")) = inl n ->
  posted (snd (main w)) =
    posted w ++
    [MkRequest (PyStr.rstrip (PyStr.is_char "/") u +:+ "/api/cron/sentiment-data")
               [("Content-Type", "application/json"); ("Authorization", "Bearer " +:+ s)]
               []
               n].
Proof.
  intros Hl Hu Hun Hs Hsn Hi.
  destruct (load_file_frame (add_log banner w)) as (r & w1' & Hl' & _ & _ & Hp).
  rewrite Hl in Hl'. injection Hl' as <- <-. cbn in Hp.
  rewrite main_spec, load_config_spec, Hl. unfold check_required.
  rewrite Hu, Hs. cbn [truthy]. rewrite Hun, Hsn. cbn [negb]. rewrite Hi.
  match goal with
  | |- context [fetch_sentiment_data ?c ?w0] =>
      destruct (fetch_frame c w0) as (_ & Hq & b & Hb);
      destruct (fetch_sentiment_data c w0) as [r w2]
  end.
  cbn in Hq, Hb. subst r. rewrite Hp in Hq. by destruct b.
Qed.

(** ** More on [fetch_sentiment_data] *)

(** X10: an exception out of [requests.post] never leaves
    [fetch_sentiment_data]: the fetch returns failure and adds exactly one
    ERROR record, chosen by the first matching handler: the timeout
    record for a [Timeout] (although it is a [RequestException] too), the
    request-failure record for any other [RequestException], the
    unexpected-error record for an exception of neither library. *)
Theorem fetch_exception_classified config w e :
  endpoint (sentiment_request config) = inr e ->
  exists msg,
    fetch_sentiment_data config w =
      (Return false,
       add_log [(ERROR, msg)]
         (add_post (sentiment_request config)
            (add_log [(INFO, "🤖 Starting sentiment data fetch from "
                             +:+ req_url (sentiment_request config))] w))) /\
    (is_Timeout e = true ->
       msg = "⏰ Request timed out after " +:+ pretty (timeout config) +:+ " seconds") /\
    (is_Timeout e = false -> is_RequestException e = true ->
       msg = "❌ Request failed: " +:+ exn_str e) /\
    (is_Timeout e = false -> is_RequestException e = false -> is_JSONDecodeError e = false ->
       msg = "❌ Unexpected error: " +:+ exn_str e).
Proof.
  intros He. exists (snd (failure_record config e)).
  split.
  - rewrite fetch_spec. cbn zeta. rewrite He. unfold failure_record.
    by destruct (is_Timeout e), (is_RequestException e), (is_JSONDecodeError e).
  - unfold failure_record. split_and!.
    + by intros ->.
    + by intros -> ->.
    + by intros -> -> ->.
Qed.

(** X11: on status 200 with a JSON object the fetch returns success and
    logs the three report fields in order, each as the object gives it
    or as [N/A] when the object has no such field. *)
Theorem fetch_success_records config w resp fields :
  endpoint (sentiment_request config) = inl resp ->
  status_code resp = 200 ->
  json resp = inl (JsonObject fields) ->
  fst (fetch_sentiment_data config w) = Return true /\
  logged (snd (fetch_sentiment_data config w)) =
    logged w ++
    [(INFO, "🤖 Starting sentiment data fetch from " +:+ req_url (sentiment_request config));
     (INFO, "📡 Response status: 200");
     (INFO, "✅ Sentiment data fetch successful!");
     (INFO, "📊 Data points: " +:+ default "N/A" (fields !! "dataPoints"));
     (INFO, "📱 Top posts: " +:+ default "N/A" (fields !! "topPosts"));
     (INFO, "⏰ Timestamp: " +:+ default "N/A" (fields !! "timestamp"))] /\
  (forall key, fields !! key = None -> default "N/A" (fields !! key) = "N/A").
Proof.
  intros Hresp Hs Hj. rewrite fetch_spec. cbn zeta. rewrite Hresp.
  unfold accepted, response_records. rewrite Hs, Hj. cbn.
  split_and!; [done | by rewrite <- app_assoc | by intros key ->].
Qed.

(** X12: on status 200 with a JSON value that is not an object, the
    success record is logged before the first field is read; the read
    then raises [AttributeError], the unexpected-error record follows
    and the fetch returns failure. *)
Theorem non_object_json_logs_success_then_fails config w resp ty :
  endpoint (sentiment_request config) = inl resp ->
  status_code resp = 200 ->
  json resp = inl (JsonOther ty) ->
  fst (fetch_sentiment_data config w) = Return false /\
  logged (snd (fetch_sentiment_data config w)) =
    logged w ++
    [(INFO, "🤖 Starting sentiment data fetch from " +:+ req_url (sentiment_request config));
     (INFO, "📡 Response status: 200");
     (INFO, "✅ Sentiment data fetch successful!");
     (ERROR, "❌ Unexpected error: '" +:+ ty +:+ "' object has no attribute 'get'")].
Proof.
  intros Hresp Hs Hj. rewrite fetch_spec. cbn zeta. rewrite Hresp.
  unfold accepted, response_records. rewrite Hs, Hj. cbn.
  split; [done | by rewrite <- app_assoc].
Qed.

(** ** More on the log and the environment of a run *)

Lemma load_config_log_extends w :
  exists l, logged (snd (load_config w)) = logged w ++ l.
Proof.
  rewrite load_config_spec. pose proof (load_file_log w) as Hlog.
  destruct (load_file w) as [[[]|e|c] w1]; cbn in Hlog; try by eexists.
  unfold check_required.
  destruct (truthy (environ w1 !! "BASE_URL")); cbn;
    [|rewrite Hlog, <- app_assoc; by eexists].
  destruct (truthy (environ w1 !! "CRON_SECRET")); cbn;
    [|rewrite Hlog, <- app_assoc; by eexists].
  destruct (PyInt.int _); by eexists.
Qed.

Lemma fetch_log_extends config w :
  exists l, logged (snd (fetch_sentiment_data config w)) = logged w ++ l.
Proof.
  rewrite fetch_spec. cbn zeta.
  destruct (endpoint _); cbn; rewrite <- app_assoc; by eexists.
Qed.

(** X13: a run only ever appends to the log, and what it appends starts
    with the four records of the start banner. *)
Theorem main_log_extends w :
  exists rest, logged (snd (main w)) = logged w ++ banner ++ rest.
Proof.
  rewrite main_spec.
  destruct (load_config_log_extends (add_log banner w)) as [l Hl].
  destruct (load_config _) as [[config|e|c] w1]; cbn in Hl.
  - destruct (fetch_log_extends config (add_log [config_loaded_record config] w1)) as [l' Hl'].
    destruct (fetch_sentiment_data config _) as [[[]|e|c] w2]; cbn in Hl' |- *;
      rewrite ?Hl', Hl, <- ?app_assoc; by eexists.
  - cbn. rewrite Hl, <- !app_assoc. by eexists.
  - cbn. rewrite Hl, <- !app_assoc. exists l. by rewrite app_nil_r || done.
Qed.

Lemma last_add_log_rule w r :
  last (logged (add_log [r; (INFO, rule)] w)) = Some (INFO, rule).
Proof.
  cbn. change [r; (INFO, rule)] with ([r] ++ [(INFO, rule)]).
  by rewrite app_assoc, last_snoc.
Qed.

(** X14: the log of a run ends with the closing rule, except when the
    run stops at a missing or empty required variable: then [sys.exit]
    is called right after the error record, which is the last one. *)
Theorem main_log_closing_rule w :
  last (logged (snd (main w))) = Some (INFO, rule) \/
  exists w1,
    load_file (add_log banner w) = (Return tt, w1) /\
    (truthy (environ w1 !! "BASE_URL") = false \/
     truthy (environ w1 !! "CRON_SECRET") = false) /\
    last (logged (snd (main w))) = Some (required_record w1).
Proof.
  rewrite main_spec, load_config_spec.
  destruct (load_file_frame (add_log banner w)) as (r & w1 & Hl & [-> | [e ->]] & _).
  - rewrite Hl.
    destruct (truthy (environ w1 !! "BASE_URL")) eqn:Hb;
      [destruct (truthy (environ w1 !! "CRON_SECRET")) eqn:Hs|].
    + left. unfold check_required. rewrite Hb, Hs. cbn [negb].
      destruct (PyInt.int _) as [n|msg]; [|apply last_add_log_rule].
      match goal with
      | |- context [fetch_sentiment_data ?c ?w0] =>
          destruct (fetch_frame c w0) as (_ & _ & b & Hf);
          destruct (fetch_sentiment_data c w0) as [r w2]
      end.
      cbn in Hf. subst r. destruct b; apply last_add_log_rule.
    + right. exists w1. split_and!; [done | by right |].
      destruct (check_required_falsy w1 (or_intror Hs)) as [-> _].
      cbn. by rewrite last_snoc.
    + right. exists w1. split_and!; [done | by left |].
      destruct (check_required_falsy w1 (or_introl Hb)) as [-> _].
      cbn. by rewrite last_snoc.
  - rewrite Hl. left. apply last_add_log_rule.
Qed.

(** X15: the environment a run leaves behind is the one the config file
    produced: the checks, the fetch and the handlers never set or remove
    a variable. *)
Theorem main_environ_is_loaded_environ w :
  environ (snd (main w)) = environ (snd (load_file (add_log banner w))).
Proof.
  rewrite main_spec, load_config_spec.
  destruct (load_file (add_log banner w)) as [[[]|e|c] w1]; cbn [snd]; [|done..].
  destruct (check_required_frame w1) as (He & _).
  destruct (check_required w1) as [[config|e|c] w1']; cbn in He |- *; [|done..].
  destruct (fetch_frame config (add_log [config_loaded_record config] w1')) as (Hf & _).
  destruct (fetch_sentiment_data config _) as [[[]|e|c] w2]; cbn in Hf |- *;
    by rewrite Hf.
Qed.

(** X16: end to end, a run whose configuration loads and whose endpoint
    answers with a status other than 200 exits with status 1; after the
    configuration record it logs the start of the fetch, the status, the
    failed status and the raw body, then the failure banner and the rule. *)
Theorem http_failure_run w config w1 resp :
  load_config (add_log banner w) = (Return config, w1) ->
  endpoint (sentiment_request config) = inl resp ->
  status_code resp <> 200 ->
  main w =
    (SysExit 1,
     MkWorld (environ w1)
       (logged w1 ++
        [(INFO, "🔧 Configuration loaded - Base URL: " +:+ base_url config);
         (INFO, "🤖 Starting sentiment data fetch from " +:+ base_url config
                +:+ "/api/cron/sentiment-data");
         (INFO, "📡 Response status: " +:+ pretty (status_code resp));
         (ERROR, "❌ Request failed with status " +:+ pretty (status_code resp));
         (ERROR, "Response: " +:+ text resp);
         (ERROR, "❌ Sentiment analysis cron job failed");
         (INFO, rule)])
       (posted w1 ++ [sentiment_request config])).
Proof.
  intros Hc Hresp Hne. apply Z.eqb_neq in Hne.
  rewrite main_spec, Hc, fetch_spec. cbn zeta. rewrite Hresp.
  unfold accepted, response_records. rewrite Hne. cbn.
  f_equal. by norm_world.
Qed.

(** X17: end to end, a run whose configuration loads and whose endpoint
    answers 200 with a JSON object exits with status 0, and its log ends
    with the three report fields, the success banner and the rule. *)
Theorem successful_run w config w1 resp fields :
  load_config (add_log banner w) = (Return config, w1) ->
  endpoint (sentiment_request config) = inl resp ->
  status_code resp = 200 ->
  json resp = inl (JsonObject fields) ->
  main w =
    (SysExit 0,
     MkWorld (environ w1)
       (logged w1 ++
        [(INFO, "🔧 Configuration loaded - Base URL: " +:+ base_url config);
         (INFO, "🤖 Starting sentiment data fetch from " +:+ base_url config
                +:+ "/api/cron/sentiment-data");
         (INFO, "📡 Response status: 200");
         (INFO, "✅ Sentiment data fetch successful!");
         (INFO, "📊 Data points: " +:+ default "N/A" (fields !! "dataPoints"));
         (INFO, "📱 Top posts: " +:+ default "N/A" (fields !! "topPosts"));
         (INFO, "⏰ Timestamp: " +:+ default "N/A" (fields !! "timestamp"));
         (INFO, "✅ Sentiment analysis cron job completed successfully");
         (INFO, rule)])
       (posted w1 ++ [sentiment_request config])).
Proof.
  intros Hc Hresp Hs Hj.
  rewrite main_spec, Hc, fetch_spec. cbn zeta. rewrite Hresp.
  unfold accepted, response_records. rewrite Hs, Hj. cbn.
  f_equal. by norm_world.
Qed.

(** X18: loading the configuration never touches the network: however
    [load_config] ends (a configuration, an exception or [SystemExit]),
    no request has been posted, and when it exits the status is 1. *)
Theorem load_config_never_posts w :
  posted (snd (load_config w)) = posted w /\
  (forall c, fst (load_config w) = SysExit c -> c = 1).
Proof. destruct (load_config_frame w) as (_ & Hp & Hc). by split. Qed.

End Script.

(** ** The theorems at sample inputs *)

Lemma fetch_success_iff_200_json_object_witness :
  answer object_response (sentiment_request sample_config) = inl object_response /\
  (fst (fetch_sentiment_data (answer object_response) sample_config (start ∅)) = Return true <->
   status_code object_response = 200 /\ parses_as_json_object object_response).
Proof.
  split; [reflexivity|].
  exact (proj1 (proj2 (fetch_success_iff_200_json_object
                         (answer object_response) sample_config (start ∅)
                         object_response eq_refl))).
Defined.

(** C1 (the code at the failing input): the endpoint answers 200 with
    the body [[]], which parses as JSON.  The fetch logs that it was
    successful, then [result.get], called for the report only, raises
    [AttributeError]; the catch-all handler logs the unexpected error and
    the fetch returns failure: success does not follow from status 200
    and a body that parses. *)
Theorem json_array_logged_successful_then_fails :
  status_code array_response = 200 /\
  parses_as_json array_response /\
  fetch_sentiment_data (answer array_response) sample_config (start ∅) =
    (Return false,
     MkWorld ∅
       [(INFO, "🤖 Starting sentiment data fetch from http://example.com/api/cron/sentiment-data");
        (INFO, "📡 Response status: 200");
        (INFO, "✅ Sentiment data fetch successful!");
        (ERROR, "❌ Unexpected error: 'list' object has no attribute 'get'")]
       [sentiment_request sample_config]) /\
  ~ (fst (fetch_sentiment_data (answer array_response) sample_config (start ∅)) = Return true <->
     status_code array_response = 200 /\ parses_as_json array_response).
Proof.
  assert (parses_as_json array_response) as Hjson by (by eexists).
  split_and!; [reflexivity | exact Hjson | reflexivity |].
  intros [_ H].
  assert (fst (fetch_sentiment_data (answer array_response) sample_config (start ∅))
          = Return true) as Habs by (by apply H).
  vm_compute in Habs. discriminate Habs.
Qed.

Lemma missing_required_exits_witness :
  let w0 := add_log (banner "2026-01-01T09:00:00") (start (env_of [("BASE_URL", "http://example.com")])) in
  load_file "config.env" NoFile w0 = (Return tt, w0) /\
  (environ w0 !! "BASE_URL" = None \/ environ w0 !! "CRON_SECRET" = None) /\
  load_config "config.env" NoFile PyStr.ascii_repr w0 =
    (SysExit 1, add_log [(ERROR, "CRON_SECRET environment variable is required")] w0).
Proof.
  intros w0.
  assert (environ w0 !! "BASE_URL" = None \/ environ w0 !! "CRON_SECRET" = None) as Habs
    by (right; reflexivity).
  split_and!; [reflexivity | exact Habs |].
  exact (proj1 (proj2 (missing_required_exits "config.env" "2026-01-01T09:00:00" NoFile
                         timing_out PyStr.ascii_repr w0 w0 eq_refl Habs))).
Defined.

Lemma empty_required_like_absent_witness :
  let w0 := start (env_of [("BASE_URL", ""); ("CRON_SECRET", "s3cret")]) in
  load_file "config.env" NoFile w0 = (Return tt, w0) /\
  (environ w0 !! "BASE_URL" = Some "" \/ environ w0 !! "CRON_SECRET" = Some "") /\
  load_config "config.env" NoFile PyStr.ascii_repr w0 =
    (SysExit 1, add_log [(ERROR, "BASE_URL environment variable is required")] w0).
Proof.
  intros w0.
  assert (environ w0 !! "BASE_URL" = Some "" \/ environ w0 !! "CRON_SECRET" = Some "") as Hempty
    by (left; reflexivity).
  split_and!; [reflexivity | exact Hempty |].
  exact (proj1 (empty_required_like_absent "config.env" "2026-01-01T09:00:00" NoFile
                  timing_out PyStr.ascii_repr w0 w0 eq_refl Hempty)).
Defined.

Lemma environment_takes_precedence_witness :
  let env := env_of [("BASE_URL", "http://env.example"); ("CRON_SECRET", "s3cret")] in
  let file := Lines ["BASE_URL=http://file.example"] in
  environ (start env) !! "BASE_URL" = Some "http://env.example" /\
  forall r,
    r ∈ posted (snd (main "config.env" "2026-01-01T09:00:00" file
                          (answer object_response) PyStr.ascii_repr (start env))) ->
    r ∈ posted (start env) \/ req_url r = "http://env.example/api/cron/sentiment-data".
Proof.
  intros env file. split; [reflexivity|].
  exact (proj2 (proj2 (proj2 (proj2 (environment_takes_precedence
                  "config.env" "2026-01-01T09:00:00" file (answer object_response) PyStr.ascii_repr
                  (start env))))
               "http://env.example" eq_refl)).
Defined.

Lemma base_url_trailing_slashes_removed_witness :
  let env := env_of [("BASE_URL", "http://example.com/"); ("CRON_SECRET", "s3cret")] in
  load_config "config.env" NoFile PyStr.ascii_repr (start env)
    = (Return (MkConfig "http://example.com" "s3cret" 300), start env) /\
  exists u,
    environ (start env) !! "BASE_URL" = Some u /\
    u = "http://example.com" +:+ PyStr.repeat_char "/" 1 /\
    req_url (sentiment_request (MkConfig "http://example.com" "s3cret" 300))
      = "http://example.com/api/cron/sentiment-data".
Proof.
  intros env. split; [reflexivity|].
  destruct (base_url_trailing_slashes_removed "config.env" NoFile timing_out PyStr.ascii_repr (start env)
              (MkConfig "http://example.com" "s3cret" 300) (start env) eq_refl)
    as (u & Hu & _ & _ & _ & _ & _ & Hex).
  exists u. split; [exact Hu|].
  assert (u = "http://example.com/") as -> by (vm_compute in Hu; congruence).
  split; [reflexivity | exact (Hex eq_refl)].
Defined.

(** C5, as first stated, fails: with two trailing slashes the base URL of
    the configuration loses both, where the removal of a single trailing
    slash keeps one. *)
Lemma base_url_single_slash_counterexample :
  let env := env_of [("BASE_URL", "http://example.com//"); ("CRON_SECRET", "s3cret")] in
  exists config w1,
    load_config "config.env" NoFile PyStr.ascii_repr (start env) = (Return config, w1) /\
    base_url config = "http://example.com" /\
    strip_single_trailing_slash "http://example.com//" = "http://example.com/" /\
    base_url config <> strip_single_trailing_slash "http://example.com//".
Proof.
  intros env. eexists _, _. split_and!; [reflexivity | reflexivity | reflexivity |].
  vm_compute. discriminate.
Qed.

Lemma json_decode_error_logged_as_request_failure_witness :
  answer html_response (sentiment_request sample_config) = inl html_response /\
  status_code html_response = 200 /\
  json html_response = inr (requests_JSONDecodeError "Expecting value: line 1 column 1 (char 0)") /\
  fst (fetch_sentiment_data (answer html_response) sample_config (start ∅)) = Return false /\
  logged (snd (fetch_sentiment_data (answer html_response) sample_config (start ∅))) =
    [(INFO, "🤖 Starting sentiment data fetch from http://example.com/api/cron/sentiment-data");
     (INFO, "📡 Response status: 200");
     (ERROR, "❌ Request failed: Expecting value: line 1 column 1 (char 0)")].
Proof.
  split_and!; [reflexivity..| |].
  - exact (proj1 (json_decode_error_logged_as_request_failure
                    (answer html_response) sample_config (start ∅) html_response _
                    eq_refl eq_refl eq_refl)).
  - exact (proj1 (proj2 (json_decode_error_logged_as_request_failure
                    (answer html_response) sample_config (start ∅) html_response _
                    eq_refl eq_refl eq_refl))).
Defined.

Lemma one_attempt_and_timeout_witness :
  timing_out (sentiment_request sample_config)
    = inr (requests_Timeout "Read timed out. (read timeout=30)") /\
  is_Timeout (requests_Timeout "Read timed out. (read timeout=30)") = true /\
  fst (fetch_sentiment_data timing_out sample_config (start ∅)) = Return false /\
  logged (snd (fetch_sentiment_data timing_out sample_config (start ∅))) =
    [(INFO, "🤖 Starting sentiment data fetch from http://example.com/api/cron/sentiment-data");
     (ERROR, "⏰ Request timed out after 30 seconds")].
Proof.
  split_and!; [reflexivity | reflexivity | |];
    apply (proj1 (proj2 (proj2 (one_attempt_and_timeout
                    "config.env" "2026-01-01T09:00:00" NoFile timing_out PyStr.ascii_repr sample_config (start ∅)))) 
             _ eq_refl eq_refl).
Defined.


Lemma invalid_timeout_is_fatal_witness :
  let env := env_of [("BASE_URL", "http://example.com"); ("CRON_SECRET", "s3cret");
                     ("REQUEST_TIMEOUT", "5 minutes")] in
  let now := "2026-01-01T09:00:00" in
  let w1 := add_log (banner now) (start env) in
  environ (snd (load_file "config.env" NoFile w1)) !! "REQUEST_TIMEOUT" = Some "5 minutes" /\
  PyInt.int "5 minutes" = inr PyInt.InvalidLiteral /\
  main "config.env" now NoFile timing_out PyStr.ascii_repr (start env) =
    (SysExit 1,
     add_log [(ERROR, "❌ Fatal error in cron job: invalid literal for int() with base 10: '5 minutes'");
              (INFO, rule)] w1).
Proof.
  intros env now w1. split_and!; [reflexivity..|].
  exact (proj2 (proj2 (invalid_timeout_is_fatal "config.env" now NoFile timing_out
                         PyStr.ascii_repr (start env) "5 minutes" _ eq_refl eq_refl)
                 eq_refl eq_refl eq_refl)).
Defined.

(** C10, as first stated, fails: with REQUEST_TIMEOUT not an integer
    and BASE_URL missing, [load_config] never reaches the conversion; it
    exits on the missing variable, raises no exception, and no fatal
    error is logged. *)
Lemma invalid_timeout_raises_counterexample :
  let env := env_of [("REQUEST_TIMEOUT", "abc")] in
  let w0 := add_log (banner "2026-01-01T09:00:00") (start env) in
  environ w0 !! "REQUEST_TIMEOUT" = Some "abc" /\
  PyInt.int "abc" = inr PyInt.InvalidLiteral /\
  ~ (exists e w1, load_config "config.env" NoFile PyStr.ascii_repr w0 = (Raise e, w1)) /\
  main "config.env" "2026-01-01T09:00:00" NoFile timing_out PyStr.ascii_repr (start env) =
    (SysExit 1, add_log [(ERROR, "BASE_URL environment variable is required")] w0).
Proof.
  intros env w0. split_and!; [reflexivity | reflexivity | | reflexivity].
  intros (e & w1 & H). vm_compute in H. discriminate H.
Qed.

(** ** The further theorems at sample inputs *)

Lemma config_line_pair_witness :
  let line := nbsp +:+ " TOKEN = a=b" +:+ ideographic_space +:+ nbsp in
  PyStr.strip line = "TOKEN " +:+ String "=" " a=b" /\
  PyStr.contains "=" "TOKEN " = false /\
  PyStr.startswith "#" "TOKEN " = false /\
  environ (start ∅) !! PyStr.strip "TOKEN " = None /\
  load_line line (start ∅) = (Return tt, set_env "TOKEN" "a=b" (start ∅)).
Proof.
  intros line. split_and!; [reflexivity..|].
  exact (proj2 (config_line_pair line "TOKEN " " a=b" (start ∅)
                  eq_refl eq_refl eq_refl) eq_refl).
Defined.

Lemma config_line_sets_clean_pair_witness :
  load_line " KEY = v " (start ∅) = (Return tt, set_env "KEY" "v" (start ∅)) /\
  environ (set_env "KEY" "v" (start ∅)) !! "KEY" <> environ (start ∅) !! "KEY" /\
  PyStr.strip "KEY" = "KEY" /\ PyStr.contains "=" "KEY" = false.
Proof.
  assert (environ (set_env "KEY" "v" (start ∅)) !! "KEY" <> environ (start ∅) !! "KEY") as Hne.
  { vm_compute. discriminate. }
  split_and!; [reflexivity | exact Hne | |].
  - exact (proj1 (proj2 (config_line_sets_clean_pair " KEY = v " (start ∅) _ "KEY"
                           eq_refl Hne))).
  - exact (proj1 (proj2 (proj2 (config_line_sets_clean_pair " KEY = v " (start ∅) _ "KEY"
                                  eq_refl Hne)))).
Defined.

Lemma config_line_sets_or_raises_witness :
  parse_line "KEY=v" = Some ("KEY", "v") /\
  environ (start ∅) !! "KEY" = None /\
  load_line "KEY=v" (start ∅) = (Return tt, set_env "KEY" "v" (start ∅)).
Proof.
  split_and!; [reflexivity..|].
  exact (config_line_sets_or_raises "KEY=v" "KEY" "v" (start ∅) eq_refl eq_refl).
Defined.

Lemma first_definition_wins_witness :
  let w' := set_env "A" "1" (start ∅) in
  let line := nbsp +:+ "A=1" in
  load_lines (["# twice"] ++ line :: ["A=2"]) (start ∅) = (Return tt, w') /\
  environ (start ∅) !! "A" = None /\
  (forall v0, ("A", v0) ∉ omap parse_line ["# twice"]) /\
  parse_line line = Some ("A", "1") /\
  environ w' !! "A" = Some "1".
Proof.
  intros w' line.
  assert (forall v0 : string, ("A", v0) ∉ omap parse_line ["# twice"]) as Hbefore.
  { intros v0. change (omap parse_line ["# twice"]) with (@nil (string * string)).
    apply not_elem_of_nil. }
  split_and!; [reflexivity | reflexivity | exact Hbefore | reflexivity |].
  exact (first_definition_wins ["# twice"] line ["A=2"] "A" "1" (start ∅) w'
           eq_refl eq_refl Hbefore eq_refl).
Defined.

Lemma load_lines_idempotent_witness :
  let w' := set_env "B" "2" (set_env "A" "1" (start ∅)) in
  load_lines ["A=1"; "B = 2"; "A=3"] (start ∅) = (Return tt, w') /\
  load_lines ["A=1"; "B = 2"; "A=3"] w' = (Return tt, w').
Proof.
  intros w'. split; [reflexivity|].
  exact (load_lines_idempotent ["A=1"; "B = 2"; "A=3"] (start ∅) w' eq_refl).
Defined.

Lemma config_file_failure_is_fatal_witness :
  let now := "2026-01-01T09:00:00" in
  let w1 := add_log [(INFO, "Loading config from config.env")]
              (add_log (banner now) (start ∅)) in
  load_file "config.env" (Lines ["=x"]) (add_log (banner now) (start ∅))
    = (Raise (OSError "[Errno 22] Invalid argument"), w1) /\
  main "config.env" now (Lines ["=x"]) timing_out PyStr.ascii_repr (start ∅) =
    (SysExit 1,
     add_log [(ERROR, "❌ Fatal error in cron job: [Errno 22] Invalid argument");
              (INFO, rule)] w1).
Proof.
  intros now w1. split; [reflexivity|].
  exact (proj1 (config_file_failure_is_fatal "config.env" now (Lines ["=x"]) timing_out PyStr.ascii_repr
                  (start ∅) w1 _ eq_refl)).
Defined.

Lemma load_config_success_log_witness :
  let env := env_of [("BASE_URL", "http://example.com"); ("CRON_SECRET", "s3cret")] in
  let file := Lines ["REQUEST_TIMEOUT=30"] in
  let w1 := set_env "REQUEST_TIMEOUT" "30"
              (add_log [(INFO, "Loading config from config.env")] (start env)) in
  load_config "config.env" file PyStr.ascii_repr (start env)
    = (Return (MkConfig "http://example.com" "s3cret" 30), w1) /\
  logged w1 = logged (start env) ++ [(INFO, "Loading config from config.env")].
Proof.
  intros env file w1. split; [reflexivity|].
  exact (proj1 (load_config_success_log "config.env" file PyStr.ascii_repr (start env) _ w1 eq_refl)).
Defined.

Lemma run_posts_configured_request_witness :
  let env := env_of [("BASE_URL", "http://example.com/"); ("CRON_SECRET", "s3cret")] in
  let now := "2026-01-01T09:00:00" in
  load_file "config.env" NoFile (add_log (banner now) (start env))
    = (Return tt, add_log (banner now) (start env)) /\
  posted (snd (main "config.env" now NoFile timing_out PyStr.ascii_repr (start env))) =
    [MkRequest "http://example.com/api/cron/sentiment-data"
               [("Content-Type", "application/json"); ("Authorization", "Bearer s3cret")]
               [] 300].
Proof.
  intros env now. split; [reflexivity|].
  exact (run_posts_configured_request "config.env" now NoFile timing_out PyStr.ascii_repr (start env)
           (add_log (banner now) (start env)) "http://example.com/" "s3cret" 300
           eq_refl eq_refl eq_refl eq_refl eq_refl eq_refl).
Defined.

Lemma fetch_exception_classified_witness :
  let refused : request -> response + exn :=
    fun _ => inr (requests_ConnectionError "Connection refused") in
  refused (sentiment_request sample_config)
    = inr (requests_ConnectionError "Connection refused") /\
  logged (snd (fetch_sentiment_data refused sample_config (start ∅))) =
    [(INFO, "🤖 Starting sentiment data fetch from http://example.com/api/cron/sentiment-data");
     (ERROR, "❌ Request failed: Connection refused")].
Proof.
  intros refused. split; [reflexivity|].
  destruct (fetch_exception_classified refused sample_config (start ∅) _ eq_refl)
    as (msg & Heq & _ & Hreq & _).
  rewrite Heq, (Hreq eq_refl eq_refl). reflexivity.
Defined.

Lemma fetch_success_records_witness :
  answer object_response (sentiment_request sample_config) = inl object_response /\
  status_code object_response = 200 /\
  json object_response = inl (JsonObject ∅) /\
  logged (snd (fetch_sentiment_data (answer object_response) sample_config (start ∅))) =
    [(INFO, "🤖 Starting sentiment data fetch from http://example.com/api/cron/sentiment-data");
     (INFO, "📡 Response status: 200");
     (INFO, "✅ Sentiment data fetch successful!");
     (INFO, "📊 Data points: N/A");
     (INFO, "📱 Top posts: N/A");
     (INFO, "⏰ Timestamp: N/A")].
Proof.
  split_and!; [reflexivity..|].
  exact (proj1 (proj2 (fetch_success_records (answer object_response) sample_config
                         (start ∅) object_response ∅ eq_refl eq_refl eq_refl))).
Defined.

Lemma non_object_json_logs_success_then_fails_witness :
  answer array_response (sentiment_request sample_config) = inl array_response /\
  status_code array_response = 200 /\
  json array_response = inl (JsonOther "list") /\
  logged (snd (fetch_sentiment_data (answer array_response) sample_config (start ∅))) =
    [(INFO, "🤖 Starting sentiment data fetch from http://example.com/api/cron/sentiment-data");
     (INFO, "📡 Response status: 200");
     (INFO, "✅ Sentiment data fetch successful!");
     (ERROR, "❌ Unexpected error: 'list' object has no attribute 'get'")].
Proof.
  split_and!; [reflexivity..|].
  exact (proj2 (non_object_json_logs_success_then_fails (answer array_response)
                  sample_config (start ∅) array_response "list" eq_refl eq_refl eq_refl)).
Defined.

Lemma http_failure_run_witness :
  let env := env_of [("BASE_URL", "http://example.com"); ("CRON_SECRET", "s3cret")] in
  let now := "2026-01-01T09:00:00" in
  let resp := MkResponse 500 "server error"
                (inr (requests_JSONDecodeError "Expecting value: line 1 column 1 (char 0)")) in
  let config := MkConfig "http://example.com" "s3cret" 300 in
  load_config "config.env" NoFile PyStr.ascii_repr (add_log (banner now) (start env))
    = (Return config, add_log (banner now) (start env)) /\
  answer resp (sentiment_request config) = inl resp /\
  status_code resp <> 200 /\
  fst (main "config.env" now NoFile (answer resp) PyStr.ascii_repr (start env)) = SysExit 1.
Proof.
  intros env now resp config.
  assert (status_code resp <> 200) as Hne by (vm_compute; discriminate).
  split_and!; [reflexivity | reflexivity | exact Hne |].
  rewrite (http_failure_run "config.env" now NoFile (answer resp) PyStr.ascii_repr (start env) config
             _ resp eq_refl eq_refl Hne).
  reflexivity.
Defined.

Lemma successful_run_witness :
  let env := env_of [("BASE_URL", "http://example.com"); ("CRON_SECRET", "s3cret")] in
  let now := "2026-01-01T09:00:00" in
  let config := MkConfig "http://example.com" "s3cret" 300 in
  load_config "config.env" NoFile PyStr.ascii_repr (add_log (banner now) (start env))
    = (Return config, add_log (banner now) (start env)) /\
  fst (main "config.env" now NoFile (answer object_response) PyStr.ascii_repr (start env)) = SysExit 0.
Proof.
  intros env now config. split; [reflexivity|].
  rewrite (successful_run "config.env" now NoFile (answer object_response) PyStr.ascii_repr (start env)
             config _ object_response ∅ eq_refl eq_refl eq_refl eq_refl).
  reflexivity.
Defined.

(** ** Text beyond ASCII *)

(** [strip] takes Unicode whitespace off both ends and leaves the rest. *)
Example strip_unicode_whitespace :
  PyStr.strip (nbsp +:+ " v" +:+ nbsp +:+ "w " +:+ ideographic_space) = "v" +:+ nbsp +:+ "w" /\
  parse_line ("K=v" +:+ nbsp) = Some ("K", "v") /\
  parse_line (nbsp +:+ "# BASE_URL=http://example.com") = None.
Proof. by split_and!. Qed.

(** [int] reads the decimal digits of every script, between Unicode
    whitespace. *)
Example int_unicode_digits :
  PyInt.int "٣٠" = inl 30 /\
  PyInt.int (ideographic_space +:+ "-１２_３" +:+ nbsp) = inl (-123) /\
  PyInt.int "12½" = inr PyInt.InvalidLiteral.
Proof. by split_and!. Qed.

(** With REQUEST_TIMEOUT not an integer and the config file failing, the fatal
    error is the one of the file. *)
Example fatal_error_of_the_file_comes_first :
  let env := env_of [("BASE_URL", "http://example.com"); ("CRON_SECRET", "s3cret");
                     ("REQUEST_TIMEOUT", "abc")] in
  let now := "2026-01-01T09:00:00" in
  main "config.env" now (Lines ["=x"]) timing_out PyStr.ascii_repr (start env) =
    (SysExit 1,
     add_log [(ERROR, "❌ Fatal error in cron job: [Errno 22] Invalid argument"); (INFO, rule)]
       (add_log [(INFO, "Loading config from config.env")]
          (add_log (banner now) (start env)))).
Proof. reflexivity. Qed.
